(** * Order service (order/app.py): a shallow embedding and its properties

  The order service keeps order records in Redis hashes, mutates them
  through redis-py pipelines, and drives a checkout saga over Kafka.
  This development embeds the handlers of [order/app.py] as functions
  over an explicit store, an explicit price oracle and an explicit
  message bus, and states the properties of the order record and of
  the checkout saga against that embedding. *)

From Stdlib Require Import ZArith String Ascii List Lia.
From Stdlib Require Import DecimalString DecimalZ DecimalPos.
From stdpp Require Import base option list strings gmap.
Import ListNotations.

Local Open Scope Z_scope.
Local Open Scope string_scope.

(** ** Python values crossing the Redis boundary *)

(** redis-py sends [str] and [int] arguments as their UTF-8 / decimal
  bytes and returns [bytes].  A Python [str] and its UTF-8 encoding are
  both modelled by [string] (a sequence of octets), so [.encode()] and
  [.decode()] are the identity. *)
Module PyInt.

(** [str(n).encode()]: how redis-py encodes an [int] argument. *)
Definition to_bytes (z : Z) : string :=
  NilZero.string_of_int (Z.to_int z).

(** [int(b)]: decimal digits with an optional leading minus sign;
    anything else raises [ValueError] ([None]). *)
Definition of_bytes (s : string) : option Z :=
  Z.of_int <$> NilZero.int_of_string s.

End PyInt.

(** ** The fragment of Python's [json] module the service uses *)

Module Json.

(** Decoded JSON values, as [json.loads] and [jsonify] see them. *)
#[local] Unset Elimination Schemes.
Inductive value :=
| JStr (s : string)
| JNum (z : Z)
| JBool (b : bool)
| JArr (l : list value)
| JObj (o : list (string * value)).
#[local] Set Elimination Schemes.

Definition dquote : ascii := "034"%char.
Definition backslash : ascii := "092"%char.

Definition hex_digit (n : N) : ascii :=
  match n with
  | 0 => "0" | 1 => "1" | 2 => "2" | 3 => "3" | 4 => "4" | 5 => "5"
  | 6 => "6" | 7 => "7" | 8 => "8" | 9 => "9" | 10 => "a" | 11 => "b"
  | 12 => "c" | 13 => "d" | 14 => "e" | _ => "f"
  end%N%char.

Definition hex_value (c : ascii) : option N :=
  let n := N_of_ascii c in
  if ((48 <=? n) && (n <=? 57))%N then Some (n - 48)%N
  else if ((97 <=? n) && (n <=? 102))%N then Some (n - 87)%N
  else if ((65 <=? n) && (n <=? 70))%N then Some (n - 55)%N
  else None.

(** [json.encoder.py_encode_basestring_ascii] on one character: the
    two-character escapes of [ESCAPE_DCT], [\u00xx] for everything else
    outside [' '..'~'], the character itself otherwise. *)
Definition escape_char (c : ascii) : string :=
  let n := N_of_ascii c in
  if Ascii.eqb c dquote then String backslash (String dquote EmptyString)
  else if Ascii.eqb c backslash then String backslash (String backslash EmptyString)
  else if (n =? 8)%N then String backslash "b"
  else if (n =? 12)%N then String backslash "f"
  else if (n =? 10)%N then String backslash "n"
  else if (n =? 13)%N then String backslash "r"
  else if (n =? 9)%N then String backslash "t"
  else if ((32 <=? n) && (n <=? 126))%N then String c EmptyString
  else String backslash
         (String "u" (String "0" (String "0"
           (String (hex_digit (n / 16)) (String (hex_digit (n mod 16)) EmptyString))))).

Fixpoint escape (s : string) : string :=
  match s with
  | EmptyString => EmptyString
  | String c s' => escape_char c ++ escape s'
  end.

(** [json.dumps(s)] for a [str]. *)
Definition dumps_str (s : string) : string :=
  String dquote (escape s ++ String dquote EmptyString).

Fixpoint dumps_elements (l : list string) : string :=
  match l with
  | [] => EmptyString
  | [x] => dumps_str x
  | x :: l' => dumps_str x ++ ", " ++ dumps_elements l'
  end.

(** [json.dumps(l)] for a list of [str] (default separators). *)
Definition dumps (l : list string) : string :=
  "[" ++ dumps_elements l ++ "]".

Definition unescape_simple (e : ascii) : option ascii :=
  if Ascii.eqb e dquote then Some dquote
  else if Ascii.eqb e backslash then Some backslash
  else if Ascii.eqb e "/" then Some "/"%char
  else if Ascii.eqb e "b" then Some "008"%char
  else if Ascii.eqb e "f" then Some "012"%char
  else if Ascii.eqb e "n" then Some "010"%char
  else if Ascii.eqb e "r" then Some "013"%char
  else if Ascii.eqb e "t" then Some "009"%char
  else None.

(** A [\uXXXX] escape; only code points below 256 fit the octet model. *)
Definition unescape_hex (h1 h2 h3 h4 : ascii) : option ascii :=
  a ← hex_value h1; b ← hex_value h2; c ← hex_value h3; d ← hex_value h4;
  if ((a =? 0) && (b =? 0))%N then Some (ascii_of_N (c * 16 + d)) else None.

Definition cons_fst (c : ascii) (r : option (string * string)) :
  option (string * string) :=
  match r with
  | Some (s, rest) => Some (String c s, rest)
  | None => None
  end.

(** Scans a string literal after its opening quote; returns the decoded
    text and what follows the closing quote. *)
Fixpoint read_string (s : string) : option (string * string) :=
  match s with
  | EmptyString => None
  | String c s1 =>
    if Ascii.eqb c dquote then Some (EmptyString, s1)
    else if Ascii.eqb c backslash then
      match s1 with
      | EmptyString => None
      | String e s2 =>
        if Ascii.eqb e "u" then
          match s2 with
          | String h1 (String h2 (String h3 (String h4 s3))) =>
            match unescape_hex h1 h2 h3 h4 with
            | Some d => cons_fst d (read_string s3)
            | None => None
            end
          | _ => None
          end
        else
          match unescape_simple e with
          | Some d => cons_fst d (read_string s2)
          | None => None
          end
      end
    else cons_fst c (read_string s1)
  end.

Fixpoint read_elements (fuel : nat) (s : string) : option (list string) :=
  match fuel with
  | O => None
  | S fuel' =>
    match s with
    | String q s1 =>
      if Ascii.eqb q dquote then
        match read_string s1 with
        | Some (x, String "]" EmptyString) => Some [x]
        | Some (x, String "," (String " " s2)) =>
          cons x <$> read_elements fuel' s2
        | _ => None
        end
      else None
    | EmptyString => None
    end
  end.

(** [json.loads(s)] restricted to arrays of strings in the layout
    [dumps] writes; every other text is a decoding error ([None]). *)
Definition loads (s : string) : option (list string) :=
  match s with
  | String "[" (String "]" EmptyString) => Some []
  | String "[" s1 => read_elements (String.length s1) s1
  | _ => None
  end.

End Json.

(** ** kafka-python: the default partitioner *)

Module Kafka.

(** [bytes] as the list of its octets. *)
Definition encode (s : string) : list Z :=
  map (fun c => Z.of_N (N_of_ascii c)) (list_ascii_of_string s).

Definition mask32 (x : Z) : Z := Z.land x 0xffffffff.

(** [data[i]] for an index the caller keeps in range. *)
Definition byte_at (data : list Z) (i : Z) : Z := nth (Z.to_nat i) data 0.

Definition seed : Z := 0x9747b28c.
Definition m : Z := 0x5bd1e995.
Definition r : Z := 24.

(** One round of the four-bytes-at-a-time loop of [murmur2]. *)
Definition mix (data : list Z) (h : Z) (i : nat) : Z :=
  let i4 := Z.of_nat i * 4 in
  let k := Z.land (byte_at data (i4 + 0)) 0xff
           + Z.shiftl (Z.land (byte_at data (i4 + 1)) 0xff) 8
           + Z.shiftl (Z.land (byte_at data (i4 + 2)) 0xff) 16
           + Z.shiftl (Z.land (byte_at data (i4 + 3)) 0xff) 24 in
  let k := mask32 k in
  let k := k * m in
  let k := mask32 k in
  let k := Z.lxor k (Z.shiftr (k mod 0x100000000) r) in
  let k := mask32 k in
  let k := k * m in
  let k := mask32 k in
  let h := h * m in
  let h := mask32 h in
  let h := Z.lxor h k in
  mask32 h.

(** [kafka.partitioner.default.murmur2], the pure-Python port of the Java
    client's hash that [app.py] imports. *)
Definition murmur2 (data : list Z) : Z :=
  let length := Z.of_nat (List.length data) in
  let h := Z.lxor seed length in
  let length4 := length / 4 in
  let h := fold_left (mix data) (seq 0 (Z.to_nat length4)) h in
  let extra_bytes := length mod 4 in
  let base := Z.land length (Z.lnot 3) in
  let h := if (3 <=? extra_bytes)%Z
           then mask32 (Z.lxor h (Z.shiftl (Z.land (byte_at data (base + 2)) 0xff) 16))
           else h in
  let h := if (2 <=? extra_bytes)%Z
           then mask32 (Z.lxor h (Z.shiftl (Z.land (byte_at data (base + 1)) 0xff) 8))
           else h in
  let h := if (1 <=? extra_bytes)%Z
           then mask32 (mask32 (Z.lxor h (Z.land (byte_at data base) 0xff)) * m)
           else h in
  let h := Z.lxor h (Z.shiftr (h mod 0x100000000) 13) in
  let h := mask32 h in
  let h := h * m in
  let h := mask32 h in
  let h := Z.lxor h (Z.shiftr (h mod 0x100000000) 15) in
  mask32 h.

(** [DefaultPartitioner.__call__] for a message that has a key:
    [idx = murmur2(key); idx &= 0x7fffffff; idx %= len(all_partitions);
    return all_partitions[idx]].  [None] stands for the exception an empty
    partition list raises. *)
Definition default_partitioner (key : list Z) (all_partitions : list Z) : option Z :=
  let idx := murmur2 key in
  let idx := Z.land idx 0x7fffffff in
  match all_partitions with
  | [] => None
  | _ =>
    let idx := idx mod Z.of_nat (List.length all_partitions) in
    nth_error all_partitions (Z.to_nat idx)
  end.

End Kafka.

(** ** Python dictionaries with [str] keys, in insertion order *)

Module Dict.

(** [d.get(k)] / [d[k]]. *)
Fixpoint get {V : Type} (k : string) (d : list (string * V)) : option V :=
  match d with
  | [] => None
  | (k', v) :: d' => if String.eqb k' k then Some v else get k d'
  end.

(** [d[k] = v]: replaces in place, or appends a new key. *)
Fixpoint put {V : Type} (k : string) (v : V) (d : list (string * V)) :
  list (string * V) :=
  match d with
  | [] => [(k, v)]
  | (k', v') :: d' =>
    if String.eqb k' k then (k, v) :: d' else (k', v') :: put k v d'
  end.

End Dict.

(** ** Redis: hashes, WATCH / MULTI / EXEC, and redis-py pipelines *)

Module Redis.

(** A hash value: field/value pairs. *)
Definition hash : Type := list (string * string).

(** The keyspace, and for every key the number of writes it has received.
    Redis flags every client watching a key as soon as the key is written;
    comparing the write count at EXEC with the one seen at WATCH is the
    same test. *)
Record server := {
  data : gmap string hash;
  version : gmap string nat
}.

Definition empty : server := {| data := ∅; version := ∅ |}.

Inductive command :=
| EXISTS (key : string)
| HGETALL (key : string)
| HSET (key field value : string)
| DEL (key : string).

Inductive reply :=
| Int (n : Z)
| Hash (h : hash).

Definition version_of (s : server) (k : string) : nat :=
  default 0%nat (version s !! k).

Definition hash_at (s : server) (k : string) : option hash := data s !! k.

(** Every write to a key bumps its write count. *)
Definition touch (k : string) (s : server) : gmap string nat :=
  <[k := S (version_of s k)]> (version s).

Definition store_hash (k : string) (h : hash) (s : server) : server :=
  {| data := <[k := h]> (data s); version := touch k s |}.

Definition drop (k : string) (s : server) : server :=
  {| data := delete k (data s); version := touch k s |}.

Definition run (c : command) (s : server) : server * reply :=
  match c with
  | EXISTS k =>
    (s, Int (match hash_at s k with Some _ => 1 | None => 0 end))
  | HGETALL k =>
    (s, Hash (match hash_at s k with Some h => h | None => [] end))
  | HSET k f v =>
    let h := match hash_at s k with Some h => h | None => [] end in
    (store_hash k (Dict.put f v h) s,
     Int (match Dict.get f h with Some _ => 0 | None => 1 end))
  | DEL k =>
    match hash_at s k with
    | Some _ => (drop k s, Int 1)
    | None => (s, Int 0)
    end
  end.

(** The commands of one MULTI ... EXEC block, run back to back. *)
Fixpoint run_all (cs : list command) (s : server) : server * list reply :=
  match cs with
  | [] => (s, [])
  | c :: cs' =>
    let '(s1, x) := run c s in
    let '(s2, xs) := run_all cs' s1 in
    (s2, x :: xs)
  end.

(** Client side of [db.pipeline(transaction=True)]: the keys under WATCH
    with the write count seen when the watch was placed, and the commands
    buffered since [multi()]. *)
Record pipeline := {
  watched : list (string * nat);
  command_stack : list command
}.

Definition fresh : pipeline := {| watched := []; command_stack := [] |}.

Definition unchanged (s : server) (w : list (string * nat)) : bool :=
  forallb (fun kv => Nat.eqb (version_of s (fst kv)) (snd kv)) w.

End Redis.

(** ** The handlers of [order/app.py] *)

Module Order.

Import Json.

(** Exceptions the handlers' [except Exception] clauses can catch. *)
Inductive exn :=
| WatchError
| KeyError (k : string)
| IndexError
| TypeError
| ValueError
| JSONDecodeError
| ZeroDivisionError.

(** What a handler hands to Flask: [jsonify(v)], [str(e)], or (in
    [add_item]) [str({"error": str(e), "type": str(type(e))})]. *)
Inductive body :=
| Jsonify (v : value)
| Str (e : exn)
| StrDict (e : exn).

Definition response : Type := body * Z.

(** A record of [order_result_topic] as the consumer's deserializers
    return it, with the time (ms) it becomes available on its partition. *)
Record message := {
  msg_key : value;
  msg_value : value;
  msg_arrival : Z
}.

(** Calls the handlers make on the Kafka clients and on the pipeline's
    watch, in program order. *)
Inductive event :=
| ConsumerOpen
| ConsumerAssign (topic : string) (partition : Z)
| ConsumerYield (msg : message)
| ConsumerClose
| ProducerSend (topic : string) (payload : value) (key : string)
| PipeUnwatch.

(** What a request reads from its surroundings. *)
Record env := {
  prices : string -> option Z;
  topics : string -> option (list Z);
  inbox : Z -> list message;
  uuids : nat -> string
}.

(** What a request changes. [others] holds the commands of concurrent
    clients: one batch reaches the server just before each round trip of
    this request. *)
Record state := {
  server : Redis.server;
  pipe : Redis.pipeline;
  others : list (list Redis.command);
  clock : Z;
  drawn : nat;
  log : list event
}.

Definition with_server (s : Redis.server) (st : state) : state :=
  {| server := s; pipe := pipe st; others := others st; clock := clock st;
     drawn := drawn st; log := log st |}.

Definition with_pipe (p : Redis.pipeline) (st : state) : state :=
  {| server := server st; pipe := p; others := others st; clock := clock st;
     drawn := drawn st; log := log st |}.

Definition with_others (o : list (list Redis.command)) (st : state) : state :=
  {| server := server st; pipe := pipe st; others := o; clock := clock st;
     drawn := drawn st; log := log st |}.

Definition with_clock (t : Z) (st : state) : state :=
  {| server := server st; pipe := pipe st; others := others st; clock := t;
     drawn := drawn st; log := log st |}.

Definition with_drawn (n : nat) (st : state) : state :=
  {| server := server st; pipe := pipe st; others := others st; clock := clock st;
     drawn := n; log := log st |}.

Definition with_log (l : list event) (st : state) : state :=
  {| server := server st; pipe := pipe st; others := others st; clock := clock st;
     drawn := drawn st; log := l |}.

(** A statement either falls through with a value, executes [return], or
    raises. *)
Inductive result (A : Type) :=
| Val (a : A)
| Return (r : response)
| Raise (e : exn).
Arguments Val {A} a.
Arguments Return {A} r.
Arguments Raise {A} e.

Definition M (A : Type) : Type := env -> state -> state * result A.

#[global] Instance M_ret : MRet M := fun A a _ st => (st, Val a).

#[global] Instance M_bind : MBind M := fun A B f c e st =>
  match c e st with
  | (st', Val a) => f a e st'
  | (st', Return r) => (st', Return r)
  | (st', Raise x) => (st', Raise x)
  end.

Definition return_ {A : Type} (r : response) : M A := fun _ st => (st, Return r).

Definition raise {A : Type} (x : exn) : M A := fun _ st => (st, Raise x).

Definition emit (ev : event) : M unit :=
  fun _ st => (with_log (log st ++ [ev]) st, Val tt).

(** [try: body / except Exception as e: return handler(e) / finally: cleanup] *)
Definition try_except_finally (body : M response) (handler : exn -> response)
  (cleanup : M unit) : M response :=
  fun e st =>
    let '(st1, res) := body e st in
    let resp := match res with
                | Val x => x
                | Return x => x
                | Raise x => handler x
                end in
    let '(st2, _) := cleanup e st1 in
    (st2, Val resp).

(** *** redis-py pipeline calls *)

Definition interfere : M unit := fun _ st =>
  match others st with
  | [] => (st, Val tt)
  | batch :: rest =>
    (with_others rest (with_server (fst (Redis.run_all batch (server st))) st), Val tt)
  end.

(** [pipe = db.pipeline(transaction=True)] *)
Definition pipeline : M unit := fun _ st => (with_pipe Redis.fresh st, Val tt).

(** [pipe.watch(key)]: sent at once. *)
Definition watch (key : string) : M unit :=
  interfere ;;
  ((fun _ st =>
      let p := pipe st in
      (with_pipe {| Redis.watched :=
                      (key, Redis.version_of (server st) key) :: Redis.watched p;
                    Redis.command_stack := Redis.command_stack p |} st, Val tt))
   : M unit).

(** [pipe.multi()]: from here on commands are buffered. Every command of
    [app.py] is issued after [multi()] or on a pipeline that is not
    watching, so every command is buffered. *)
Definition multi : M unit := mret tt.

Definition queue (c : Redis.command) : M unit := fun _ st =>
  let p := pipe st in
  (with_pipe {| Redis.watched := Redis.watched p;
                Redis.command_stack := Redis.command_stack p ++ [c] |} st, Val tt).

(** [pipe.execute()]: sends MULTI, the buffered commands and EXEC. EXEC
    is refused ([WatchError]) when a watched key was written since its
    WATCH; whatever the outcome, EXEC forgets every watch and redis-py
    resets the pipeline. *)
Definition execute : M (list Redis.reply) := fun e st =>
  let p := pipe st in
  match Redis.command_stack p, Redis.watched p with
  | [], [] => (st, Val [])
  | _, _ =>
    let '(st0, _) := interfere e st in
    if Redis.unchanged (server st0) (Redis.watched p) then
      let '(s', replies) := Redis.run_all (Redis.command_stack p) (server st0) in
      (with_pipe Redis.fresh (with_server s' st0), Val replies)
    else (with_pipe Redis.fresh st0, Raise WatchError)
  end.

(** [pipe.unwatch()]: sends UNWATCH only while the pipeline is watching. *)
Definition unwatch : M unit :=
  emit PipeUnwatch ;;
  ((fun e st =>
      let p := pipe st in
      match Redis.watched p with
      | [] => (st, Val tt)
      | _ =>
        let '(st0, _) := interfere e st in
        (with_pipe {| Redis.watched := [];
                      Redis.command_stack := Redis.command_stack p |} st0, Val tt)
      end)
   : M unit).

(** [pipe.reset()] *)
Definition reset : M unit := fun _ st => (with_pipe Redis.fresh st, Val tt).

(** *** Python expressions that can raise *)

Definition getitem {V : Type} (k : string) (d : list (string * V)) : M V :=
  match Dict.get k d with
  | Some v => mret v
  | None => raise (KeyError k)
  end.

Definition index {A : Type} (i : nat) (l : list A) : M A :=
  match nth_error l i with
  | Some a => mret a
  | None => raise IndexError
  end.

Definition json_loads (s : string) : M (list string) :=
  match Json.loads s with
  | Some l => mret l
  | None => raise JSONDecodeError
  end.

Definition int (s : string) : M Z :=
  match PyInt.of_bytes s with
  | Some z => mret z
  | None => raise ValueError
  end.

(** Python truth value of a reply: [0] and [{}] are false. *)
Definition truthy (x : Redis.reply) : bool :=
  match x with
  | Redis.Int n => negb (n =? 0)%Z
  | Redis.Hash [] => false
  | Redis.Hash (_ :: _) => true
  end.

(** Using a reply as a dictionary. *)
Definition as_hash (x : Redis.reply) : M Redis.hash :=
  match x with
  | Redis.Hash h => mret h
  | Redis.Int _ => raise TypeError
  end.

Definition uuid4 : M string := fun e st =>
  (with_drawn (S (drawn st)) st, Val (uuids e (drawn st))).

Definition error (text : string) : body := Jsonify (JObj [("error", JStr text)]).

Definition success : body := Jsonify (JObj [("status", JStr "success")]).

(** [get_item_price]: the stock service's answer, [None] unless it
    replies 200. *)
Definition get_item_price (item_id : string) : M (option Z) :=
  fun e st => (st, Val (prices e item_id)).

(** [result[0] == 0] *)
Definition eq_int (x : Redis.reply) (n : Z) : bool :=
  match x with
  | Redis.Int k => (k =? n)%Z
  | Redis.Hash _ => false
  end.

(** [item_id in items] *)
Definition contains (item_id : string) (items : list string) : bool :=
  existsb (String.eqb item_id) items.

(** [items.remove(item_id)]: drops the first occurrence. *)
Fixpoint remove (item_id : string) (items : list string) : list string :=
  match items with
  | [] => []
  | x :: items' =>
    if String.eqb x item_id then items' else x :: remove item_id items'
  end.

(** [POST /create/<user_id>] *)
Definition create_order (user_id : string) : M response :=
  order_id ← uuid4;
  pipeline ;;
  let key := "order:" ++ order_id in
  let items := [] in
  try_except_finally
    (multi ;;
     queue (Redis.HSET key "order_id" order_id) ;;
     queue (Redis.HSET key "paid" "False") ;;
     queue (Redis.HSET key "items" (Json.dumps items)) ;;
     queue (Redis.HSET key "user_id" user_id) ;;
     queue (Redis.HSET key "total_cost" (PyInt.to_bytes 0)) ;;
     execute ;;
     return_ (Jsonify (JObj [("order_id", JStr order_id)]), 200))
    (fun e => (Str e, 500))
    reset.

(** [DELETE /remove/<order_id>] *)
Definition remove_order (order_id : string) : M response :=
  pipeline ;;
  try_except_finally
    (queue (Redis.DEL ("order:" ++ order_id)) ;;
     result ← execute;
     deleted ← index 0 result;
     if eq_int deleted 0
     then return_ (error "Order not found", 400)
     else return_ (success, 200))
    (fun e => (Str e, 500))
    reset.

(** [POST /addItem/<order_id>/<item_id>] *)
Definition add_item (order_id item_id : string) : M response :=
  let order_key := "order:" ++ order_id in
  pipeline ;;
  try_except_finally
    (watch order_key ;;
     multi ;;
     queue (Redis.EXISTS order_key) ;;
     queue (Redis.HGETALL order_key) ;;
     result ← execute;
     match result with
     | [] => return_ (error "Result Error In Pipe Execution", 400)
     | _ =>
       found ← index 0 result;
       if negb (truthy found)
       then return_ (error "The order_key does not exist", 400)
       else
         order_data ← index 1 result;
         item_price ← get_item_price item_id;
         match item_price with
         | None => return_ (error "Item not found", 400)
         | Some item_price =>
           order_data ← as_hash order_data;
           raw ← getitem "items" order_data;
           items ← json_loads raw;
           let items := (items ++ [item_id])%list in
           cost ← getitem "total_cost" order_data;
           cost ← int cost;
           let total_cost := cost + item_price in
           multi ;;
           queue (Redis.HSET order_key "items" (Json.dumps items)) ;;
           queue (Redis.HSET order_key "total_cost" (PyInt.to_bytes total_cost)) ;;
           execute ;;
           return_ (success, 200)
         end
     end)
    (fun e => (StrDict e, 500))
    unwatch.

(** [DELETE /removeItem/<order_id>/<item_id>] *)
Definition remove_item (order_id item_id : string) : M response :=
  let order_key := "order:" ++ order_id in
  pipeline ;;
  try_except_finally
    (watch order_key ;;
     multi ;;
     queue (Redis.HGETALL order_key) ;;
     result ← execute;
     order_data ← index 0 result;
     if negb (truthy order_data)
     then return_ (error "Order not found", 400)
     else
       item_price ← get_item_price item_id;
       match item_price with
       | None => return_ (error "Item not found", 400)
       | Some item_price =>
         order_data ← as_hash order_data;
         raw ← getitem "items" order_data;
         items ← json_loads raw;
         if negb (contains item_id items)
         then return_ (error "Item not in order", 400)
         else
           let items := remove item_id items in
           cost ← getitem "total_cost" order_data;
           cost ← int cost;
           let total_cost := cost - item_price in
           multi ;;
           queue (Redis.HSET order_key "items" (Json.dumps items)) ;;
           queue (Redis.HSET order_key "total_cost" (PyInt.to_bytes total_cost)) ;;
           execute ;;
           return_ (success, 200)
       end)
    (fun e => (Str e, 500))
    unwatch.

(** One entry of the dictionary comprehension of [find_order]:
    [key.decode(): value.decode() if key != b"items" else
    json.loads(value.decode())]. *)
Definition find_entry (kv : string * string) : M (string * value) :=
  let '(key, v) := kv in
  if negb (String.eqb key "items")
  then mret (key, JStr v)
  else decoded ← json_loads v; mret (key, JArr (JStr <$> decoded)).

Fixpoint comprehension {A B : Type} (f : A -> M B) (l : list A) : M (list B) :=
  match l with
  | [] => mret []
  | a :: l' => b ← f a; bs ← comprehension f l'; mret (b :: bs)
  end.

(** [GET /find/<order_id>] *)
Definition find_order (order_id : string) : M response :=
  let order_key := "order:" ++ order_id in
  pipeline ;;
  try_except_finally
    (watch order_key ;;
     multi ;;
     queue (Redis.HGETALL order_key) ;;
     result ← execute;
     order_data ← index 0 result;
     if negb (truthy order_data)
     then return_ (error "Order not found", 400)
     else
       order_data ← as_hash order_data;
       order ← comprehension find_entry order_data;
       return_ (Jsonify (JObj order), 200))
    (fun e => (Str e, 500))
    unwatch.

(** [byte_keys_to_str]: keys and [bytes] values decoded. *)
Definition byte_keys_to_str (dictionary : Redis.hash) : list (string * string) :=
  map (fun kv => (fst kv, snd kv)) dictionary.

(** [x == s] for a decoded JSON value [x] and a [str] [s]. *)
Definition is_str (x : value) (s : string) : bool :=
  match x with
  | JStr s' => String.eqb s' s
  | _ => false
  end.

(** [msg[k]] on a decoded JSON value. *)
Definition subscript (msg : value) (k : string) : M value :=
  match msg with
  | JObj o => getitem k o
  | _ => raise TypeError
  end.

(** [len(consumer.partitions_for_topic(t))]; an unknown topic gives
    [None], whose [len] raises. *)
Definition partitions_for_topic (t : string) : M (option (list Z)) :=
  fun e st => (st, Val (topics e t)).

Definition len {A : Type} (x : option (list A)) : M Z :=
  match x with
  | Some l => mret (Z.of_nat (length l))
  | None => raise TypeError
  end.

(** [a % b] on [int]. *)
Definition modulo (a b : Z) : M Z :=
  if (b =? 0)%Z then raise ZeroDivisionError else mret (a mod b).

(** [time.time()], in milliseconds. *)
Definition time : M Z := fun _ st => (st, Val (clock st)).

Definition sleep_until (t : Z) : M unit :=
  fun _ st => (with_clock (Z.max (clock st) t) st, Val tt).

Definition consumer_timeout_ms : Z := 10000.

(** The [for message in consumer] loop of [checkout] over the records
    [msgs] still to come on the assigned partition.  Each [next()] waits
    at most [consumer_timeout_ms] for a record and then ends the
    iteration.  [Val tt] is leaving the loop, by exhaustion or [break]. *)
Fixpoint for_message_in_consumer (global_transaction_id : string) (timeout : Z)
  (msgs : list message) : M unit :=
  match msgs with
  | [] =>
    now ← time;
    sleep_until (now + consumer_timeout_ms)
  | message :: msgs' =>
    now ← time;
    if (now + consumer_timeout_ms <=? msg_arrival message)%Z
    then sleep_until (now + consumer_timeout_ms)
    else
      sleep_until (msg_arrival message) ;;
      emit (ConsumerYield message) ;;
      if is_str (msg_key message) global_transaction_id
      then
        let msg := msg_value message in
        status ← subscript msg "status";
        if is_str status "success"
        then return_ (success, 200)
        else return_ (error "Payment failed", 400)
      else
        now ← time;
        if (timeout <? now)%Z
        then mret tt
        else for_message_in_consumer global_transaction_id timeout msgs'
  end.

(** The index [checkout] computes for the reply partition. *)
Definition partition_index (global_transaction_id : string) (count : Z) : M Z :=
  let partitionIndex := Kafka.murmur2 (Kafka.encode global_transaction_id) in
  let partitionIndex := Z.land partitionIndex 0x7fffffff in
  modulo partitionIndex count.

(** [POST /checkout/<order_id>] *)
Definition checkout (order_id : string) : M response :=
  global_transaction_id ← uuid4;
  let order_key := "order:" ++ order_id in
  pipeline ;;
  try_except_finally
    (watch order_key ;;
     multi ;;
     queue (Redis.HGETALL order_key) ;;
     result ← execute;
     found ← index 0 result;
     found ← as_hash found;
     let order_data := byte_keys_to_str found in
     match order_data with
     | [] => return_ (error "Order not found", 400)
     | _ =>
       items ← getitem "items" order_data;
       list_data ← json_loads items;
       let order_data :=
         Dict.put "items" (JArr (JStr <$> list_data))
                  (map (fun kv => (fst kv, JStr (snd kv))) order_data) in
       emit ConsumerOpen ;;
       partitions ← partitions_for_topic "order_result_topic";
       count ← len partitions;
       partitionIndex ← partition_index global_transaction_id count;
       emit (ConsumerAssign "order_result_topic" partitionIndex) ;;
       emit (ProducerSend "stock_check_topic"
               (JObj [("affected_items", JArr (JStr <$> list_data));
                      ("action", JStr "remove");
                      ("is_roll_back", JStr "false")])
               global_transaction_id) ;;
       emit (ProducerSend "payment_processing_topic"
               (JObj [("order_data", JObj order_data);
                      ("action", JStr "pay");
                      ("is_roll_back", JStr "false")])
               global_transaction_id) ;;
       now ← time;
       let timeout := now + 10000 in
       msgs ← ((fun e st => (st, Val (inbox e partitionIndex))) : M (list message));
       for_message_in_consumer global_transaction_id timeout msgs ;;
       return_ (error "Wait too long, quit", 400)
     end)
    (fun e => (Str e, 500))
    unwatch.

(** [key_serializer] of the module-level [KafkaProducer]:
    [json.dumps(v).encode("utf-8")]. *)
Definition key_serializer (v : string) : list Z :=
  Kafka.encode (Json.dumps_str v).

(** The partition [producer.send(topic, key=k, ...)] writes to: the
    default partitioner applied to the serialized key. *)
Definition producer_partition (e : env) (topic : string) (k : string) : option Z :=
  match topics e topic with
  | Some all_partitions => Kafka.default_partitioner (key_serializer k) all_partitions
  | None => None
  end.

End Order.

(** ** Observations on the store *)

Module View.

Import Order.

(** The record stored for an order, and its two mutable fields as the
    handlers decode them. *)
Definition stored (st : state) (order_id : string) : option Redis.hash :=
  Redis.hash_at (server st) ("order:" ++ order_id).

Definition order_items (st : state) (order_id : string) : option (list string) :=
  h ← stored st order_id; raw ← Dict.get "items" h; Json.loads raw.

Definition order_total (st : state) (order_id : string) : option Z :=
  h ← stored st order_id; cost ← Dict.get "total_cost" h; PyInt.of_bytes cost.

(** The response of a handler run to completion. *)
Definition response_of (x : state * result response) : option response :=
  match snd x with
  | Val resp => Some resp
  | _ => None
  end.

End View.

(** ** Concrete surroundings used to run the handlers *)

Module Scenario.

Import Order.

Definition order_id : string := "11111111-2222-4333-8444-555555555555".

Definition price_list (l : list (string * Z)) : string -> option Z :=
  fun item_id => Dict.get item_id l.

(** A stock service selling I1 at 500 and I2 at 300, a results topic with
    four partitions, no reply on any of them, and a UUID source whose
    first draw is [order_id]. *)
Definition shop : env := {|
  prices := price_list [("I1", 500); ("I2", 300)];
  topics := fun _ => Some [0; 1; 2; 3];
  inbox := fun _ => [];
  uuids := fun n =>
    match n with
    | O => order_id
    | _ => "00000000-0000-4000-8000-000000000000"
    end
|}.

Definition with_prices (p : string -> option Z) (e : env) : env :=
  {| prices := p; topics := topics e; inbox := inbox e; uuids := uuids e |}.

Definition with_inbox (i : Z -> list message) (e : env) : env :=
  {| prices := prices e; topics := topics e; inbox := i; uuids := uuids e |}.

Definition boot : state := {|
  server := Redis.empty;
  pipe := Redis.fresh;
  others := [];
  clock := 0;
  drawn := 0;
  log := []
|}.

(** Two records of the results topic: one for some other saga, arriving
    9.5 s after [boot], and the reply to [gid], arriving after 15 s. *)
Definition foreign_record : message := {|
  msg_key := Json.JStr "ffffffff-ffff-4fff-8fff-ffffffffffff";
  msg_value := Json.JObj [("status", Json.JStr "failure")];
  msg_arrival := 9500
|}.

Definition late_reply : message := {|
  msg_key := Json.JStr "00000000-0000-4000-8000-000000000000";
  msg_value := Json.JObj [("status", Json.JStr "success")];
  msg_arrival := 15000
|}.

(** [shop] with these two records on partition 1 of the results topic. *)
Definition shop_with_late_reply : env :=
  with_inbox (fun p => if (p =? 1)%Z then [foreign_record; late_reply] else [])
             shop.

(** The state a handler leaves behind. *)
Definition after {A : Type} (c : M A) (e : env) (st : state) : state :=
  fst (c e st).

(** [boot] after [POST /create/U1]. *)
Definition created : state := after (create_order "U1") shop boot.

(** ... and after [POST /addItem/<order_id>/I1]. *)
Definition stocked : state := after (add_item order_id "I1") shop created.

(** The correlation id the next [checkout] draws. *)
Definition gid : string := "00000000-0000-4000-8000-000000000000".

End Scenario.

(** ** Sequences of addItem / removeItem calls on one order *)

Module Ledger.

Import Order View.

Inductive op :=
| AddItem (item_id : string)
| RemoveItem (item_id : string).

(** A call: the stock service's price list when the call is made, and
    the operation. *)
Definition call : Type := (string -> option Z) * op.

Definition run_op (order_id : string) (o : op) : M response :=
  match o with
  | AddItem item_id => add_item order_id item_id
  | RemoveItem item_id => remove_item order_id item_id
  end.

(** The calls made one after the other, each run to completion. *)
Fixpoint run_calls (e : env) (order_id : string) (calls : list call)
  (st : state) : state :=
  match calls with
  | [] => st
  | (p, o) :: calls' =>
    run_calls e order_id calls'
      (fst (run_op order_id o (Scenario.with_prices p e) st))
  end.

(** Following the specification: the entries of an order, each with the
    unit price it had when it was inserted. *)
Definition entries : Type := list (string * Z).

Fixpoint remove_entry (item_id : string) (es : entries) : entries :=
  match es with
  | [] => []
  | (x, price) :: es' =>
    if String.eqb x item_id then es' else (x, price) :: remove_entry item_id es'
  end.

(** Following the specification: what a call does to the entries.  A
    call whose item the oracle does not know changes nothing. *)
Definition spec_step (c : call) (es : entries) : entries :=
  match c with
  | (p, AddItem item_id) =>
    match p item_id with
    | Some price => (es ++ [(item_id, price)])%list
    | None => es
    end
  | (p, RemoveItem item_id) =>
    match p item_id with
    | Some _ => remove_entry item_id es
    | None => es
    end
  end.

Fixpoint spec_calls (calls : list call) (es : entries) : entries :=
  match calls with
  | [] => es
  | c :: calls' => spec_calls calls' (spec_step c es)
  end.

Definition sum_prices (es : entries) : Z :=
  fold_right Z.add 0 (map snd es).

(** The stored record agrees with the entries: same items in the same
    order, and [total_cost] the sum of their insertion-time prices. *)
Definition cost_invariant (st : state) (order_id : string) (es : entries) : Prop :=
  order_items st order_id = Some (map fst es)
  /\ order_total st order_id = Some (sum_prices es).

(** Every removal is made while the oracle quotes, for the removed item,
    the price its first entry was inserted at. *)
Fixpoint removals_at_insertion_price (calls : list call) (es : entries) : Prop :=
  match calls with
  | [] => True
  | (p, o) :: calls' =>
    match o with
    | RemoveItem item_id =>
      forall quoted inserted,
        p item_id = Some quoted -> Dict.get item_id es = Some inserted ->
        quoted = inserted
    | AddItem _ => True
    end
    /\ removals_at_insertion_price calls' (spec_step (p, o) es)
  end.

End Ledger.

(** ** Event logs of the handlers *)

Module Trace.

Import Json Order.

(** A computation that logs nothing. *)
Definition silent {A : Type} (c : M A) : Prop :=
  forall e st, log (fst (c e st)) = log st.

(** In surroundings [e], whatever [c] appends to the log satisfies [P]. *)
Definition traces {A : Type} (e : env) (P : list event -> Prop) (c : M A) : Prop :=
  forall st, exists evs, log (fst (c e st)) = (log st ++ evs)%list /\ P evs.

(** The events of the [try] block of [checkout] with correlation id
    [gid]: nothing when it leaves before creating the consumer; the
    creation alone when the partition count cannot be obtained; otherwise
    the creation, the assignment, the two sends and the records the
    consumer hands over, in this order. *)
Inductive saga_events (e : env) (gid : string) : list event -> Prop :=
| saga_not_started :
    saga_events e gid []
| saga_no_partition :
    saga_events e gid [ConsumerOpen]
| saga_published (all_partitions : list Z) (list_data : list string)
    (order_data : list (string * value)) (handed : list message) :
    topics e "order_result_topic" = Some all_partitions ->
    all_partitions <> [] ->
    saga_events e gid
      ([ConsumerOpen;
        ConsumerAssign "order_result_topic"
          (Z.land (Kafka.murmur2 (Kafka.encode gid)) 0x7fffffff
           mod Z.of_nat (length all_partitions));
        ProducerSend "stock_check_topic"
          (JObj [("affected_items", JArr (JStr <$> list_data));
                 ("action", JStr "remove");
                 ("is_roll_back", JStr "false")])
          gid;
        ProducerSend "payment_processing_topic"
          (JObj [("order_data", JObj order_data);
                 ("action", JStr "pay");
                 ("is_roll_back", JStr "false")])
          gid]
       ++ map ConsumerYield handed)%list.

(** The routes of the service. *)
Inductive request :=
| Create (user_id : string)
| Remove (order_id : string)
| AddItem (order_id item_id : string)
| RemoveItem (order_id item_id : string)
| Find (order_id : string)
| Checkout (order_id : string).

Definition handle (req : request) : M response :=
  match req with
  | Create user_id => create_order user_id
  | Remove order_id => remove_order order_id
  | AddItem order_id item_id => add_item order_id item_id
  | RemoveItem order_id item_id => remove_item order_id item_id
  | Find order_id => find_order order_id
  | Checkout order_id => checkout order_id
  end.

End Trace.

(** ** Waiting for the saga reply *)

Module Reply.

Import Json Order.

(** A record is the reply of the saga [gid] when its key is [gid]. *)
Definition matches (gid : string) (m : message) : bool :=
  is_str (msg_key m) gid.



(** The answer [checkout] gives for a reply with status [status]. *)
Definition answer (status : value) : response :=
  if is_str status "success"
  then (success, 200)
  else (error "Payment failed", 400).

End Reply.

(** ** What a handler does to the store *)

Module Footprint.

Import Order.

Definition read_only (c : Redis.command) : bool :=
  match c with
  | Redis.EXISTS _ | Redis.HGETALL _ => true
  | Redis.HSET _ _ _ | Redis.DEL _ => false
  end.

(** No concurrent client is about to act, and nothing but reads is
    buffered in the pipeline. *)
Definition undisturbed (st : state) : Prop :=
  others st = []
  /\ forallb read_only (Redis.command_stack (pipe st)) = true.

(** From an undisturbed state, [c] leaves the server as it found it and
    the state undisturbed. *)
Definition reads_only {A : Type} (c : M A) : Prop :=
  forall e st,
    undisturbed st ->
    undisturbed (fst (c e st)) /\ server (fst (c e st)) = server st.

(** From an undisturbed state, [c] either leaves the server as it found
    it, or executes [return jsonify({"status": "success"}), 200]. *)
Definition writes_only_on_success {A : Type} (c : M A) : Prop :=
  forall e st,
    undisturbed st ->
    (others (fst (c e st)) = [] /\ server (fst (c e st)) = server st)
    \/ snd (c e st) = Return (success, 200).

End Footprint.

(** ** Pricing a list of items from one price list *)

Module Pricing.

(** The sum of the prices [p] quotes for [items]; an item [p] does not
    know counts for nothing. *)
Definition priced (p : string -> option Z) (items : list string) : Z :=
  fold_right Z.add 0 (map (fun item_id => default 0 (p item_id)) items).

End Pricing.

(** * Properties *)

(** ** Encodings *)

Lemma PyInt_of_to_bytes (z : Z) : PyInt.of_bytes (PyInt.to_bytes z) = Some z.
Proof.
  unfold PyInt.of_bytes, PyInt.to_bytes.
  rewrite NilZero.isi.
  - simpl. now rewrite DecimalZ.of_to.
  - destruct z; simpl; try discriminate.
    intros [= E]. now apply Unsigned.to_uint_nonnil in E.
  - destruct z; simpl; try discriminate.
    intros [= E]. now apply Unsigned.to_uint_nonnil in E.
Qed.

Lemma string_app_assoc (a b c : string) : (a ++ b) ++ c = a ++ (b ++ c).
Proof.
  induction a as [|x a IH]; [reflexivity|].
  change (String x ((a ++ b) ++ c) = String x (a ++ (b ++ c))).
  now rewrite IH.
Qed.

Lemma string_length_app (a b : string) :
  String.length (a ++ b) = (String.length a + String.length b)%nat.
Proof.
  induction a as [|x a IH]; [reflexivity|].
  change (S (String.length (a ++ b)) = S (String.length a + String.length b)).
  now rewrite IH.
Qed.

Lemma read_string_escape_char (c : ascii) (t : string) :
  Json.read_string (Json.escape_char c ++ t) = Json.cons_fst c (Json.read_string t).
Proof.
  destruct c as [[] [] [] [] [] [] [] []]; reflexivity.
Qed.

Lemma read_string_escape (s t : string) :
  Json.read_string (Json.escape s ++ String Json.dquote t) = Some (s, t).
Proof.
  induction s as [|c s IH]; simpl.
  - reflexivity.
  - rewrite string_app_assoc, read_string_escape_char, IH. reflexivity.
Qed.

Lemma read_string_dumps_str (x t : string) :
  exists body,
    Json.dumps_str x ++ t = String Json.dquote body /\
    Json.read_string body = Some (x, t).
Proof.
  exists (Json.escape x ++ String Json.dquote t). split.
  - unfold Json.dumps_str.
    change (String Json.dquote ((Json.escape x ++ String Json.dquote "") ++ t)
            = String Json.dquote (Json.escape x ++ String Json.dquote t)).
    now rewrite string_app_assoc.
  - apply read_string_escape.
Qed.

Lemma read_elements_dumps (l : list string) :
  forall (x : string) (fuel : nat),
    (length l < fuel)%nat ->
    Json.read_elements fuel (Json.dumps_elements (x :: l) ++ "]") = Some (x :: l).
Proof.
  induction l as [|y l IH]; intros x fuel Hfuel.
  - destruct fuel as [|fuel]; [inversion Hfuel|].
    destruct (read_string_dumps_str x "]") as (body & E & R).
    change (Json.dumps_elements [x]) with (Json.dumps_str x).
    rewrite E. simpl. rewrite R. reflexivity.
  - destruct fuel as [|fuel]; [inversion Hfuel|].
    change (Json.dumps_elements (x :: y :: l))
      with (Json.dumps_str x ++ ", " ++ Json.dumps_elements (y :: l)).
    rewrite string_app_assoc.
    destruct (read_string_dumps_str x ((", " ++ Json.dumps_elements (y :: l)) ++ "]"))
      as (body & E & R).
    rewrite E.
    cbn [Json.read_elements]. rewrite Ascii.eqb_refl, R.
    change ((", " ++ Json.dumps_elements (y :: l)) ++ "]")
      with (String "," (String " " (Json.dumps_elements (y :: l) ++ "]"))).
    cbv beta iota.
    rewrite IH by (simpl in Hfuel; lia). reflexivity.
Qed.

Lemma dumps_elements_length (l : list string) (x : string) :
  (length l < String.length (Json.dumps_elements (x :: l)))%nat.
Proof.
  revert x. induction l as [|y l IH]; intros x.
  - simpl. lia.
  - change (Json.dumps_elements (x :: y :: l))
      with (Json.dumps_str x ++ ", " ++ Json.dumps_elements (y :: l)).
    rewrite !string_length_app. specialize (IH y). simpl in *. lia.
Qed.

Lemma dumps_elements_head (x : string) (l : list string) (t : string) :
  exists tail, Json.dumps_elements (x :: l) ++ t = String Json.dquote tail.
Proof.
  destruct l as [|y l].
  - destruct (read_string_dumps_str x t) as (body & E & _). eauto.
  - change (Json.dumps_elements (x :: y :: l))
      with (Json.dumps_str x ++ ", " ++ Json.dumps_elements (y :: l)).
    rewrite string_app_assoc.
    destruct (read_string_dumps_str x ((", " ++ Json.dumps_elements (y :: l)) ++ t))
      as (body & E & _).
    eauto.
Qed.

(** [json.loads(json.dumps(l)) == l] for a list of strings. *)
Lemma loads_dumps (l : list string) : Json.loads (Json.dumps l) = Some l.
Proof.
  destruct l as [|x l]; [reflexivity|].
  unfold Json.dumps.
  change ("[" ++ Json.dumps_elements (x :: l) ++ "]")
    with (String "[" (Json.dumps_elements (x :: l) ++ "]")).
  destruct (dumps_elements_head x l "]") as (tail & Htail).
  unfold Json.loads. cbv beta iota.
  rewrite Htail. cbv beta iota. rewrite <- Htail.
  apply read_elements_dumps.
  rewrite string_length_app. pose proof (dumps_elements_length l x). lia.
Qed.

(** ** Dictionaries and the store *)

Lemma get_put_eq {V : Type} (k : string) (v : V) (d : list (string * V)) :
  Dict.get k (Dict.put k v d) = Some v.
Proof.
  induction d as [|[k' v'] d IH]; simpl.
  - now rewrite String.eqb_refl.
  - destruct (String.eqb k' k) eqn:E; simpl.
    + now rewrite String.eqb_refl.
    + now rewrite E.
Qed.

Lemma get_put_ne {V : Type} (k k' : string) (v : V) (d : list (string * V)) :
  k <> k' -> Dict.get k' (Dict.put k v d) = Dict.get k' d.
Proof.
  intros Hne. induction d as [|[k0 v0] d IH]; simpl.
  - destruct (String.eqb_spec k k'); [contradiction | reflexivity].
  - destruct (String.eqb_spec k0 k) as [->|Hk]; simpl.
    + destruct (String.eqb_spec k k'); [contradiction | reflexivity].
    + destruct (String.eqb k0 k'); [reflexivity | exact IH].
Qed.

Lemma hash_at_store_hash (k : string) (h : Redis.hash) (s : Redis.server) :
  Redis.hash_at (Redis.store_hash k h s) k = Some h.
Proof. unfold Redis.hash_at, Redis.store_hash. simpl. apply lookup_insert_eq. Qed.

(** Splits a conjunction into its parts, and nothing else. *)
Ltac conjuncts := repeat match goal with |- _ /\ _ => split end.

(** ** Running a handler symbolically *)

Import Order View.

Arguments Json.loads : simpl never.
Arguments Json.dumps : simpl never.
Arguments PyInt.of_bytes : simpl never.
Arguments PyInt.to_bytes : simpl never.

Ltac run_handler :=
  cbv [create_order remove_order add_item remove_item find_order checkout
       try_except_finally mbind M_bind mret M_ret pipeline watch multi queue
       execute interfere unwatch reset emit return_ raise index getitem
       json_loads int as_hash truthy eq_int get_item_price uuid4 time
       partitions_for_topic len partition_index modulo
       with_pipe with_server with_others with_log with_clock with_drawn
       server pipe others clock drawn log
       Redis.watched Redis.command_stack Redis.fresh Redis.unchanged
       Redis.run_all Redis.run
       forallb nth_error app fst snd negb andb Z.eqb];
  fold (@app event); fold (@app string).

(** ** removeItem *)

(** C9: [remove_item] asks the price oracle before it looks at the
    order's items: on an existing order, an item the oracle has no price
    for is answered "Item not found" (400) whether or not it is in the
    order, and the record is left as it was. *)
Theorem remove_item_asks_oracle_first
  (e : env) (st : state) (order_id item_id : string) (h : Redis.hash) :
  others st = [] ->
  stored st order_id = Some h ->
  h <> [] ->
  prices e item_id = None ->
  exists st',
    remove_item order_id item_id e st = (st', Val (error "Item not found", 400))
    /\ server st' = server st.
Proof.
  intros Ho Hs Hh Hp.
  destruct st as [srv pp oth clk drw lg]. unfold stored in Hs. simpl in *. subst oth.
  run_handler. rewrite Nat.eqb_refl. run_handler. rewrite Hs. run_handler.
  destruct h as [|kv h]; [done|]. run_handler. rewrite Hp. run_handler.
  eexists. split; reflexivity.
Qed.

Lemma remove_item_asks_oracle_first_witness :
  exists st',
    remove_item Scenario.order_id "I1"
      (Scenario.with_prices (fun _ => None) Scenario.shop)
      (Scenario.after (add_item Scenario.order_id "I1") Scenario.shop Scenario.created)
    = (st', Val (error "Item not found", 400))
    /\ server st'
       = server (Scenario.after (add_item Scenario.order_id "I1") Scenario.shop
                   Scenario.created).
Proof.
  eapply (remove_item_asks_oracle_first _ _ _ _
            [("order_id", Scenario.order_id); ("paid", "False");
             ("items", Json.dumps ["I1"]); ("user_id", "U1");
             ("total_cost", "500")]).
  - reflexivity.
  - vm_compute. reflexivity.
  - discriminate.
  - reflexivity.
Defined.

(** C7 as amended: on an existing order whose items do not contain
    [item_id], [remove_item] leaves the record unchanged and answers 400;
    the message is "Item not in order" when the price oracle knows the
    item, and "Item not found" when it does not. *)
Theorem remove_item_absent_item
  (e : env) (st : state) (order_id item_id : string)
  (h : Redis.hash) (raw : string) (items : list string) :
  others st = [] ->
  stored st order_id = Some h ->
  Dict.get "items" h = Some raw ->
  Json.loads raw = Some items ->
  contains item_id items = false ->
  exists st',
    remove_item order_id item_id e st
    = (st', Val (error (match prices e item_id with
                        | Some _ => "Item not in order"
                        | None => "Item not found"
                        end), 400))
    /\ server st' = server st.
Proof.
  intros Ho Hs Hraw Hl Hin.
  destruct st as [srv pp oth clk drw lg]. unfold stored in Hs. simpl in *. subst oth.
  run_handler. rewrite Nat.eqb_refl. run_handler. rewrite Hs. run_handler.
  destruct h as [|kv h]; [discriminate|]. run_handler.
  destruct (prices e item_id) as [p|]; run_handler.
  - rewrite Hraw. run_handler. rewrite Hl. run_handler. rewrite Hin. run_handler.
    eexists. split; reflexivity.
  - eexists. split; reflexivity.
Qed.

Lemma remove_item_absent_item_witness :
  exists st',
    remove_item Scenario.order_id "I2" Scenario.shop
      (Scenario.after (add_item Scenario.order_id "I1") Scenario.shop Scenario.created)
    = (st', Val (error "Item not in order", 400))
    /\ server st'
       = server (Scenario.after (add_item Scenario.order_id "I1") Scenario.shop
                   Scenario.created).
Proof.
  eapply (remove_item_absent_item Scenario.shop _ _ "I2"
            [("order_id", Scenario.order_id); ("paid", "False");
             ("items", Json.dumps ["I1"]); ("user_id", "U1");
             ("total_cost", "500")] (Json.dumps ["I1"]) ["I1"]).
  - reflexivity.
  - vm_compute. reflexivity.
  - reflexivity.
  - vm_compute. reflexivity.
  - reflexivity.
Defined.

(** C7 as stated fails: I9 is not in the freshly created order, yet
    removing it is not answered "Item not in order", because the oracle
    has no price for it. *)
Lemma remove_item_absent_item_not_reported :
  order_items Scenario.created Scenario.order_id = Some []
  /\ contains "I9" [] = false
  /\ response_of (remove_item Scenario.order_id "I9" Scenario.shop Scenario.created)
     = Some (error "Item not found", 400)
  /\ response_of (remove_item Scenario.order_id "I9" Scenario.shop Scenario.created)
     <> Some (error "Item not in order", 400).
Proof.
  repeat split; try (vm_compute; reflexivity).
  vm_compute. discriminate.
Qed.

(** ** addItem and removeItem on a well-formed record *)

Lemma add_item_ok (e : env) (st : state) (order_id item_id : string)
  (items : list string) (total price : Z) :
  others st = [] ->
  order_items st order_id = Some items ->
  order_total st order_id = Some total ->
  prices e item_id = Some price ->
  let st' := fst (add_item order_id item_id e st) in
  others st' = []
  /\ order_items st' order_id = Some (items ++ [item_id])%list
  /\ order_total st' order_id = Some (total + price)
  /\ snd (add_item order_id item_id e st) = Val (success, 200).
Proof.
  intros Ho Hi Ht Hp.
  destruct st as [srv pp oth clk drw lg].
  unfold order_items, order_total, stored in *. simpl in *. subst oth.
  destruct (Redis.hash_at srv ("order:" ++ order_id)) as [h|] eqn:Hs; [|discriminate].
  simpl in Hi, Ht.
  destruct (Dict.get "items" h) as [raw|] eqn:Hraw; [|discriminate].
  destruct (Dict.get "total_cost" h) as [cost|] eqn:Hcost; [|discriminate].
  simpl in Hi, Ht.
  run_handler. rewrite Nat.eqb_refl. run_handler. rewrite Hs. run_handler.
  rewrite Hp. run_handler. rewrite Hraw. run_handler. rewrite Hi. run_handler.
  rewrite Hcost. run_handler. rewrite Ht. run_handler.
  rewrite !hash_at_store_hash. simpl.
  rewrite get_put_ne, !get_put_eq by discriminate. simpl.
  rewrite loads_dumps, PyInt_of_to_bytes. auto.
Qed.

Lemma add_item_unknown (e : env) (st : state) (order_id item_id : string) :
  others st = [] ->
  prices e item_id = None ->
  let st' := fst (add_item order_id item_id e st) in
  others st' = [] /\ server st' = server st.
Proof.
  intros Ho Hp.
  destruct st as [srv pp oth clk drw lg]. simpl in *. subst oth.
  run_handler. rewrite Nat.eqb_refl. run_handler.
  destruct (Redis.hash_at srv ("order:" ++ order_id)) as [h|]; run_handler.
  - rewrite Hp. run_handler. auto.
  - auto.
Qed.

Lemma remove_item_ok (e : env) (st : state) (order_id item_id : string)
  (items : list string) (total price : Z) :
  others st = [] ->
  order_items st order_id = Some items ->
  order_total st order_id = Some total ->
  prices e item_id = Some price ->
  contains item_id items = true ->
  let st' := fst (remove_item order_id item_id e st) in
  others st' = []
  /\ order_items st' order_id = Some (remove item_id items)
  /\ order_total st' order_id = Some (total - price)
  /\ snd (remove_item order_id item_id e st) = Val (success, 200).
Proof.
  intros Ho Hi Ht Hp Hin.
  destruct st as [srv pp oth clk drw lg].
  unfold order_items, order_total, stored in *. simpl in *. subst oth.
  destruct (Redis.hash_at srv ("order:" ++ order_id)) as [h|] eqn:Hs; [|discriminate].
  simpl in Hi, Ht.
  destruct (Dict.get "items" h) as [raw|] eqn:Hraw; [|discriminate].
  destruct (Dict.get "total_cost" h) as [cost|] eqn:Hcost; [|discriminate].
  simpl in Hi, Ht.
  run_handler. rewrite Nat.eqb_refl. run_handler. rewrite Hs. run_handler.
  destruct h as [|kv h]; [discriminate|]. run_handler.
  rewrite Hp. run_handler. rewrite Hraw. run_handler. rewrite Hi. run_handler.
  rewrite Hin. run_handler.
  rewrite Hcost. run_handler. rewrite Ht. run_handler.
  rewrite !hash_at_store_hash. simpl.
  rewrite Hs.
  rewrite get_put_ne, !get_put_eq by discriminate. simpl.
  rewrite loads_dumps, PyInt_of_to_bytes. auto.
Qed.

Lemma remove_item_refused (e : env) (st : state) (order_id item_id : string)
  (items : list string) :
  others st = [] ->
  order_items st order_id = Some items ->
  prices e item_id = None \/ contains item_id items = false ->
  let st' := fst (remove_item order_id item_id e st) in
  others st' = [] /\ server st' = server st.
Proof.
  intros Ho Hi Hcase.
  destruct st as [srv pp oth clk drw lg].
  unfold order_items, stored in *. simpl in *. subst oth.
  destruct (Redis.hash_at srv ("order:" ++ order_id)) as [h|] eqn:Hs; [|discriminate].
  simpl in Hi.
  destruct (Dict.get "items" h) as [raw|] eqn:Hraw; [|discriminate].
  simpl in Hi.
  run_handler. rewrite Nat.eqb_refl. run_handler. rewrite Hs. run_handler.
  destruct h as [|kv h]; [discriminate|]. run_handler.
  destruct (prices e item_id) as [p|] eqn:Hp; run_handler; [|auto].
  destruct Hcase as [?|Hin]; [discriminate|].
  rewrite Hraw. run_handler. rewrite Hi. run_handler. rewrite Hin. run_handler.
  auto.
Qed.


(** ** The ledger of one order *)

Import Ledger.

Lemma sum_prices_app (es : entries) (item_id : string) (price : Z) :
  sum_prices (es ++ [(item_id, price)])%list = sum_prices es + price.
Proof.
  unfold sum_prices. induction es as [|[x q] es IH]; simpl in *; lia.
Qed.

Lemma contains_entries (item_id : string) (es : entries) :
  contains item_id (map fst es) = true ->
  exists inserted, Dict.get item_id es = Some inserted.
Proof.
  induction es as [|[x q] es IH]; simpl; [discriminate|].
  rewrite (String.eqb_sym item_id x).
  destruct (String.eqb x item_id); simpl; eauto.
Qed.

Lemma remove_entries (item_id : string) (es : entries) :
  remove item_id (map fst es) = map fst (remove_entry item_id es).
Proof.
  induction es as [|[x q] es IH]; simpl; [reflexivity|].
  destruct (String.eqb x item_id); simpl; [reflexivity | now rewrite IH].
Qed.

Lemma remove_entry_absent (item_id : string) (es : entries) :
  contains item_id (map fst es) = false -> remove_entry item_id es = es.
Proof.
  induction es as [|[x q] es IH]; simpl; [reflexivity|].
  rewrite (String.eqb_sym item_id x).
  destruct (String.eqb x item_id); simpl; [discriminate|].
  intros H. now rewrite IH.
Qed.

Lemma sum_prices_remove_entry (item_id : string) (es : entries) (inserted : Z) :
  Dict.get item_id es = Some inserted ->
  sum_prices (remove_entry item_id es) = sum_prices es - inserted.
Proof.
  unfold sum_prices. induction es as [|[x q] es IH]; simpl; [discriminate|].
  destruct (String.eqb x item_id); simpl.
  - intros [= ->]. lia.
  - intros H. rewrite IH by exact H. lia.
Qed.

Lemma cost_invariant_server (st st' : state) (order_id : string) (es : entries) :
  server st' = server st ->
  cost_invariant st order_id es -> cost_invariant st' order_id es.
Proof.
  unfold cost_invariant, order_items, order_total, stored.
  now intros ->.
Qed.

Lemma run_op_step (e : env) (st : state) (order_id : string)
  (p : string -> option Z) (o : op) (es : entries) :
  others st = [] ->
  cost_invariant st order_id es ->
  match o with
  | RemoveItem item_id =>
    forall quoted inserted,
      p item_id = Some quoted -> Dict.get item_id es = Some inserted ->
      quoted = inserted
  | AddItem _ => True
  end ->
  let st' := fst (run_op order_id o (Scenario.with_prices p e) st) in
  others st' = [] /\ cost_invariant st' order_id (spec_step (p, o) es).
Proof.
  intros Ho [Hi Ht] Hprice.
  destruct o as [item_id|item_id]; simpl.
  - destruct (p item_id) as [price|] eqn:Hp.
    + destruct (add_item_ok (Scenario.with_prices p e) st order_id item_id
                  _ _ price Ho Hi Ht Hp) as (Ho' & Hi' & Ht' & _).
      split; [exact Ho'|]. split.
      * rewrite Hi'. now rewrite map_app.
      * rewrite Ht'. now rewrite sum_prices_app.
    + destruct (add_item_unknown (Scenario.with_prices p e) st order_id item_id
                  Ho Hp) as (Ho' & Hsrv).
      split; [exact Ho'|].
      apply (cost_invariant_server st); [exact Hsrv | now split].
  - destruct (p item_id) as [price|] eqn:Hp.
    + destruct (contains item_id (map fst es)) eqn:Hin.
      * destruct (remove_item_ok (Scenario.with_prices p e) st order_id item_id
                    _ _ price Ho Hi Ht Hp Hin) as (Ho' & Hi' & Ht' & _).
        destruct (contains_entries _ _ Hin) as (inserted & Hget).
        rewrite (Hprice price inserted eq_refl Hget) in Ht'.
        split; [exact Ho'|]. split.
        -- rewrite Hi'. now rewrite remove_entries.
        -- rewrite Ht'. now rewrite (sum_prices_remove_entry _ _ _ Hget).
      * destruct (remove_item_refused (Scenario.with_prices p e) st order_id
                    item_id _ Ho Hi (or_intror Hin)) as (Ho' & Hsrv).
        split; [exact Ho'|]. rewrite (remove_entry_absent _ _ Hin).
        apply (cost_invariant_server st); [exact Hsrv | now split].
    + destruct (remove_item_refused (Scenario.with_prices p e) st order_id
                  item_id _ Ho Hi (or_introl Hp)) as (Ho' & Hsrv).
      split; [exact Ho'|].
      apply (cost_invariant_server st); [exact Hsrv | now split].
Qed.

(** C1 as amended: along any sequence of completed addItem / removeItem
    calls on an order, as long as every removal is made while the oracle
    quotes the price the removed entry was inserted at, after each call
    the stored items are the order's entries and [total_cost] is the sum
    of their insertion-time prices. *)
Theorem total_cost_invariant
  (e : env) (order_id : string) (calls : list call) (n : nat)
  (st : state) (es : entries) :
  others st = [] ->
  cost_invariant st order_id es ->
  removals_at_insertion_price calls es ->
  cost_invariant (run_calls e order_id (take n calls) st) order_id
    (spec_calls (take n calls) es).
Proof.
  revert n st es.
  induction calls as [|[p o] calls IH]; intros n st es Ho Hinv Hrem.
  - destruct n; exact Hinv.
  - destruct n as [|n]; [exact Hinv|].
    destruct Hrem as [Hhere Hrest].
    destruct (run_op_step e st order_id p o es Ho Hinv Hhere) as (Ho' & Hinv').
    simpl. apply IH; assumption.
Qed.

Lemma total_cost_invariant_witness :
  cost_invariant
    (run_calls Scenario.shop Scenario.order_id
       (take 3 [(prices Scenario.shop, AddItem "I1");
                (prices Scenario.shop, AddItem "I2");
                (prices Scenario.shop, RemoveItem "I1")])
       Scenario.created)
    Scenario.order_id
    (spec_calls
       (take 3 [(prices Scenario.shop, AddItem "I1");
                (prices Scenario.shop, AddItem "I2");
                (prices Scenario.shop, RemoveItem "I1")])
       []).
Proof.
  apply (total_cost_invariant Scenario.shop Scenario.order_id
           [(prices Scenario.shop, AddItem "I1");
            (prices Scenario.shop, AddItem "I2");
            (prices Scenario.shop, RemoveItem "I1")]
           3 Scenario.created []).
  - reflexivity.
  - split; vm_compute; reflexivity.
  - simpl. repeat split.
    intros quoted inserted Hq Hi. vm_compute in Hq, Hi. congruence.
Defined.

(** C1 as stated fails: I1 is inserted at 500 and removed while the
    oracle quotes 700; the order is then empty, yet its [total_cost] is
    -200 and not the empty sum. *)
Lemma total_cost_drifts_when_price_changes :
  let calls := [(Scenario.price_list [("I1", 500)], AddItem "I1");
                (Scenario.price_list [("I1", 700)], RemoveItem "I1")] in
  let st := run_calls Scenario.shop Scenario.order_id calls Scenario.created in
  order_items st Scenario.order_id = Some []
  /\ order_total st Scenario.order_id = Some (-200)
  /\ ~ cost_invariant st Scenario.order_id (spec_calls calls []).
Proof.
  cbv zeta. split; [vm_compute; reflexivity|]. split; [vm_compute; reflexivity|].
  intros [_ Htotal]. vm_compute in Htotal. discriminate.
Qed.

(** ** What the handlers log *)

Import Trace.

Lemma bind_run {A B : Type} (c : M A) (f : A -> M B) (e : env) (st : state) :
  (c ≫= f) e st
  = match c e st with
    | (st', Val a) => f a e st'
    | (st', Return r) => (st', Return r)
    | (st', Raise x) => (st', Raise x)
    end.
Proof. reflexivity. Qed.

Lemma ret_run {A : Type} (a : A) (e : env) (st : state) :
  (mret a : M A) e st = (st, Val a).
Proof. reflexivity. Qed.

Lemma silent_bind {A B : Type} (c : M A) (f : A -> M B) :
  silent c -> (forall a, silent (f a)) -> silent (c ≫= f).
Proof.
  intros Hc Hf e st. rewrite bind_run. specialize (Hc e st).
  destruct (c e st) as [st' [a|r|x]]; simpl in *; [|exact Hc..].
  rewrite Hf. exact Hc.
Qed.

Lemma silent_ret {A : Type} (a : A) : silent (mret a : M A).
Proof. intros e st. reflexivity. Qed.

Lemma silent_return {A : Type} (r : response) : silent (return_ r : M A).
Proof. intros e st. reflexivity. Qed.

Lemma silent_raise {A : Type} (x : exn) : silent (raise x : M A).
Proof. intros e st. reflexivity. Qed.

Lemma silent_interfere : silent interfere.
Proof. intros e [srv pp [|b oth] clk drw lg]; reflexivity. Qed.

Lemma silent_pipeline : silent pipeline.
Proof. intros e st. reflexivity. Qed.

Lemma silent_reset : silent reset.
Proof. intros e st. reflexivity. Qed.

Lemma silent_multi : silent multi.
Proof. intros e st. reflexivity. Qed.

Lemma silent_queue (c : Redis.command) : silent (queue c).
Proof. intros e st. reflexivity. Qed.

Lemma silent_watch (key : string) : silent (watch key).
Proof. intros e [srv pp [|b oth] clk drw lg]; reflexivity. Qed.

Lemma silent_execute : silent execute.
Proof.
  intros e st. unfold execute.
  assert (Hi : forall st0, log (fst (interfere e st0)) = log st0)
    by (intros st0; apply silent_interfere).
  destruct (Redis.command_stack (pipe st)), (Redis.watched (pipe st));
    try reflexivity;
    specialize (Hi st); destruct (interfere e st) as [st0 u]; simpl in Hi;
    (destruct (Redis.unchanged _ _); [destruct (Redis.run_all _ _)|]);
    simpl; exact Hi.
Qed.

Lemma silent_uuid4 : silent uuid4.
Proof. intros e st. reflexivity. Qed.

Lemma silent_time : silent time.
Proof. intros e st. reflexivity. Qed.

Lemma silent_sleep_until (t : Z) : silent (sleep_until t).
Proof. intros e st. reflexivity. Qed.

Lemma silent_get_item_price (item_id : string) : silent (get_item_price item_id).
Proof. intros e st. reflexivity. Qed.

Lemma silent_partitions_for_topic (t : string) : silent (partitions_for_topic t).
Proof. intros e st. reflexivity. Qed.

Lemma silent_index {A : Type} (i : nat) (l : list A) : silent (index i l).
Proof. unfold index. destruct (nth_error l i); [apply silent_ret | apply silent_raise]. Qed.

Lemma silent_getitem {V : Type} (k : string) (d : list (string * V)) :
  silent (getitem k d).
Proof. unfold getitem. destruct (Dict.get k d); [apply silent_ret | apply silent_raise]. Qed.

Lemma silent_json_loads (s : string) : silent (json_loads s).
Proof. unfold json_loads. destruct (Json.loads s); [apply silent_ret | apply silent_raise]. Qed.

Lemma silent_int (s : string) : silent (int s).
Proof. unfold int. destruct (PyInt.of_bytes s); [apply silent_ret | apply silent_raise]. Qed.

Lemma silent_as_hash (x : Redis.reply) : silent (as_hash x).
Proof. destruct x; [apply silent_raise | apply silent_ret]. Qed.

Lemma silent_len {A : Type} (x : option (list A)) : silent (len x).
Proof. destruct x; [apply silent_ret | apply silent_raise]. Qed.

Lemma silent_modulo (a b : Z) : silent (modulo a b).
Proof. unfold modulo. destruct (b =? 0)%Z; [apply silent_raise | apply silent_ret]. Qed.

Lemma silent_subscript (msg : Json.value) (k : string) : silent (subscript msg k).
Proof. destruct msg; simpl; try apply silent_raise. apply silent_getitem. Qed.

Create HintDb silent discriminated.
#[local] Hint Resolve silent_ret silent_return silent_raise silent_interfere
  silent_pipeline silent_reset silent_multi silent_queue silent_watch
  silent_execute silent_uuid4 silent_time silent_sleep_until
  silent_get_item_price silent_partitions_for_topic silent_index
  silent_getitem silent_json_loads silent_int silent_as_hash silent_len
  silent_modulo silent_subscript : silent.

Ltac silence :=
  repeat first
    [ apply silent_bind; [| intros ?]
    | solve [auto with silent]
    | match goal with
      | |- silent (match ?x with _ => _ end) => destruct x
      | |- silent (let '(_, _) := ?x in _) => destruct x
      end ].



Lemma unwatch_log (e : env) (st : state) :
  log (fst (unwatch e st)) = (log st ++ [PipeUnwatch])%list.
Proof.
  destruct st as [srv [[|w ws] stack] [|b oth] clk drw lg]; reflexivity.
Qed.

Lemma try_unwatch_log (body : M response) (handler : exn -> response)
  (e : env) (st : state) :
  log (fst (try_except_finally body handler unwatch e st))
  = (log (fst (body e st)) ++ [PipeUnwatch])%list.
Proof.
  unfold try_except_finally. destruct (body e st) as [st1 res].
  pose proof (unwatch_log e st1) as H.
  destruct (unwatch e st1) as [st2 u]. exact H.
Qed.


Lemma traces_silent {A : Type} (e : env) (P : list event -> Prop) (c : M A) :
  silent c -> P [] -> traces e P c.
Proof.
  intros Hc HP st. exists []. rewrite app_nil_r. split; [apply Hc | exact HP].
Qed.

Lemma traces_bind_silent {A B : Type} (e : env) (P : list event -> Prop)
  (c : M A) (f : A -> M B) :
  silent c -> P [] -> (forall a, traces e P (f a)) -> traces e P (c ≫= f).
Proof.
  intros Hc HP Hf st. rewrite bind_run. specialize (Hc e st).
  destruct (c e st) as [st' [a|r|x]]; simpl in *.
  - destruct (Hf a st') as (evs & Hlog & Hevs).
    exists evs. rewrite Hlog, Hc. auto.
  - exists []. rewrite app_nil_r. auto.
  - exists []. rewrite app_nil_r. auto.
Qed.

Lemma traces_bind_emit {B : Type} (e : env) (P : list event -> Prop)
  (ev : event) (f : unit -> M B) :
  traces e (fun evs => P (ev :: evs)) (f tt) -> traces e P (emit ev ≫= f).
Proof.
  intros Hf st. rewrite bind_run. unfold emit.
  destruct (Hf (with_log (log st ++ [ev]) st)) as (evs & Hlog & Hevs).
  exists (ev :: evs). split; [|exact Hevs].
  rewrite Hlog. simpl. now rewrite <- app_assoc.
Qed.

Lemma traces_bind_topics {B : Type} (e : env) (P : list event -> Prop)
  (t : string) (f : option (list Z) -> M B) :
  traces e P (f (topics e t)) -> traces e P (partitions_for_topic t ≫= f).
Proof. intros Hf st. rewrite bind_run. apply Hf. Qed.

Lemma traces_weaken {A : Type} (e : env) (P Q : list event -> Prop) (c : M A) :
  (forall evs, P evs -> Q evs) -> traces e P c -> traces e Q c.
Proof.
  intros HPQ Hc st. destruct (Hc st) as (evs & Hlog & Hevs). eauto.
Qed.

(** The waiting loop logs the records handed over, and nothing else. *)
Lemma for_message_in_consumer_traces (e : env) (gid : string) (timeout : Z)
  (msgs : list message) :
  traces e (fun evs => exists handed, evs = map ConsumerYield handed)
    (for_message_in_consumer gid timeout msgs).
Proof.
  induction msgs as [|message msgs IH]; simpl.
  - apply traces_silent; [silence | exists []; reflexivity].
  - apply traces_bind_silent; [silence | exists []; reflexivity | intros t].
    destruct (t + consumer_timeout_ms <=? msg_arrival message)%Z.
    + apply traces_silent; [silence | exists []; reflexivity].
    + apply traces_bind_silent; [silence | exists []; reflexivity | intros _].
      apply traces_bind_emit.
      destruct (is_str (msg_key message) gid).
      * apply traces_silent; [| exists [message]; reflexivity].
        silence; destruct (is_str _ _); silence.
      * apply traces_bind_silent;
          [silence | exists [message]; reflexivity | intros t'].
        destruct (timeout <? t')%Z.
        -- apply traces_silent; [silence | exists [message]; reflexivity].
        -- eapply traces_weaken; [|exact IH].
           intros evs (handed & ->). now exists (message :: handed).
Qed.

Lemma traces_bind_ret {A B : Type} (e : env) (P : list event -> Prop)
  (a : A) (f : A -> M B) :
  traces e P (f a) -> traces e P (mret a ≫= f).
Proof. intros Hf st. rewrite bind_run. apply Hf. Qed.

Lemma traces_bind_raise {A B : Type} (e : env) (P : list event -> Prop)
  (x : exn) (f : A -> M B) :
  P [] -> traces e P (raise x ≫= f).
Proof. intros HP st. exists []. rewrite app_nil_r. auto. Qed.

Lemma traces_bind_then_silent {A B : Type} (e : env) (P : list event -> Prop)
  (c : M A) (f : A -> M B) :
  traces e P c -> (forall a, silent (f a)) -> traces e P (c ≫= f).
Proof.
  intros Hc Hf st. rewrite bind_run.
  destruct (Hc st) as (evs & Hlog & Hevs).
  destruct (c e st) as [st' [a|r|x]]; simpl in *; [|eauto..].
  exists evs. rewrite Hf. auto.
Qed.

(** Every run of [checkout] logs the events of its [try] block followed
    by the [finally] clause's [pipe.unwatch()]. *)
Lemma checkout_events (order_id : string) (e : env) (st : state) :
  exists evs,
    log (fst (checkout order_id e st)) = (log st ++ evs ++ [PipeUnwatch])%list
    /\ saga_events e (uuids e (drawn st)) evs.
Proof.
  unfold checkout. rewrite bind_run. cbn [uuid4].
  set (gid := uuids e (drawn st)).
  rewrite bind_run. cbn [pipeline].
  rewrite try_unwatch_log.
  match goal with
  | |- context [fst (?body e ?st0)] =>
    assert (Hbody : traces e (saga_events e gid) body); [|
      destruct (Hbody st0) as (evs & Hlog & Hevs);
      exists evs; rewrite Hlog; simpl; rewrite <- app_assoc; auto ]
  end.
  apply traces_bind_silent; [silence | constructor | intros _].
  apply traces_bind_silent; [silence | constructor | intros _].
  apply traces_bind_silent; [silence | constructor | intros _].
  apply traces_bind_silent; [silence | constructor | intros result].
  apply traces_bind_silent; [silence | constructor | intros found].
  apply traces_bind_silent; [silence | constructor | intros found'].
  destruct (byte_keys_to_str found') as [|kv order_data].
  { apply traces_silent; [silence | constructor]. }
  apply traces_bind_silent; [silence | constructor | intros items].
  apply traces_bind_silent; [silence | constructor | intros list_data].
  apply traces_bind_emit.
  apply traces_bind_topics.
  destruct (topics e "order_result_topic") as [all_partitions|] eqn:Htopic;
    [|apply traces_bind_raise; constructor].
  cbn [len]. apply traces_bind_ret.
  unfold partition_index, modulo.
  destruct (Z.of_nat (length all_partitions) =? 0)%Z eqn:Hcount;
    [apply traces_bind_raise; constructor|].
  assert (Hne : all_partitions <> []).
  { intros ->. discriminate. }
  apply traces_bind_ret.
  apply traces_bind_emit. apply traces_bind_emit. apply traces_bind_emit.
  apply traces_bind_silent;
    [silence | apply (saga_published e gid _ _ _ [] Htopic Hne) | intros t].
  apply traces_bind_silent;
    [intros e0 st0; reflexivity
    | apply (saga_published e gid _ _ _ [] Htopic Hne) | intros msgs].
  apply traces_bind_then_silent; [|intros; silence].
  eapply traces_weaken; [|apply for_message_in_consumer_traces].
  intros evs (handed & ->).
  apply (saga_published e gid _ _ _ handed Htopic Hne).
Qed.


(** ** The checkout saga *)

Lemma saga_events_no_close (e : env) (gid : string) (evs : list event) :
  saga_events e gid evs -> ~ In ConsumerClose evs.
Proof.
  intros [| |ps list_data order_data handed _ _] Hin; simpl in Hin.
  - exact Hin.
  - destruct Hin as [?|[]]; discriminate.
  - repeat (destruct Hin as [?|Hin]; [discriminate|]).
    apply in_map_iff in Hin. destruct Hin as (m & ? & _). discriminate.
Qed.

(** C5 as amended: on every exit path of [checkout] the call's last
    action is [pipe.unwatch()] on the store pipeline; it never closes the
    reply consumer it created. *)
Theorem checkout_releases_only_the_watch (order_id : string) (e : env) (st : state) :
  exists evs,
    log (fst (checkout order_id e st)) = (log st ++ evs)%list
    /\ ~ In ConsumerClose evs
    /\ last evs = Some PipeUnwatch.
Proof.
  destruct (checkout_events order_id e st) as (evs & Hlog & Hevs).
  exists (evs ++ [PipeUnwatch])%list. split; [exact Hlog|]. split.
  - intros Hin. apply in_app_or in Hin. destruct Hin as [Hin|[?|[]]].
    + exact (saga_events_no_close _ _ _ Hevs Hin).
    + discriminate.
  - apply last_snoc.
Qed.

(** C5 as stated fails: this checkout creates its consumer, waits until
    the timeout and returns, and the consumer is never closed. *)
Lemma checkout_leaves_consumer_open :
  let run := checkout Scenario.order_id Scenario.shop Scenario.stocked in
  snd run = Val (error "Wait too long, quit", 400)
  /\ In ConsumerOpen (log (fst run))
  /\ ~ In ConsumerClose (log (fst run)).
Proof.
  cbv zeta. split; [vm_compute; reflexivity|]. split.
  - vm_compute. tauto.
  - vm_compute. intros H.
    repeat (destruct H as [H|H]; [discriminate H|]). exact H.
Qed.

(** C6: in every run of [checkout], each message published is preceded
    in the log by the assignment of the consumer to the partition of
    [order_result_topic] that the call selected for its correlation id. *)
Theorem subscription_precedes_publication
  (order_id : string) (e : env) (st : state) (evs : list event)
  (i : nat) (topic : string) (payload : Json.value) (key : string) :
  log (fst (checkout order_id e st)) = (log st ++ evs)%list ->
  evs !! i = Some (ProducerSend topic payload key) ->
  exists (j : nat) (all_partitions : list Z),
    (j < i)%nat
    /\ topics e "order_result_topic" = Some all_partitions
    /\ evs !! j
       = Some (ConsumerAssign "order_result_topic"
                 (Z.land (Kafka.murmur2 (Kafka.encode (uuids e (drawn st))))
                         0x7fffffff
                  mod Z.of_nat (length all_partitions))).
Proof.
  intros Hlog Hsend.
  destruct (checkout_events order_id e st) as (evs0 & Hlog0 & Hevs).
  rewrite Hlog in Hlog0. apply app_inv_head in Hlog0. subst evs.
  destruct Hevs as [| |ps list_data order_data handed Htopic Hne].
  - destruct i as [|i]; simpl in Hsend; try discriminate;
      try (now rewrite lookup_nil in Hsend).
  - destruct i as [|[|i]]; simpl in Hsend; try discriminate;
      try (now rewrite lookup_nil in Hsend).
  - destruct i as [|[|i]]; simpl in Hsend; try discriminate.
    exists 1%nat, ps. split; [lia|]. split; [exact Htopic | reflexivity].
Qed.

Lemma subscription_precedes_publication_witness :
  exists (j : nat) (all_partitions : list Z),
    (j < 3)%nat
    /\ topics Scenario.shop "order_result_topic" = Some all_partitions
    /\ [ConsumerOpen;
        ConsumerAssign "order_result_topic" 1;
        ProducerSend "stock_check_topic"
          (Json.JObj [("affected_items", Json.JArr [Json.JStr "I1"]);
                      ("action", Json.JStr "remove");
                      ("is_roll_back", Json.JStr "false")])
          Scenario.gid;
        ProducerSend "payment_processing_topic"
          (Json.JObj [("order_data",
                       Json.JObj [("order_id", Json.JStr Scenario.order_id);
                                  ("paid", Json.JStr "False");
                                  ("items", Json.JArr [Json.JStr "I1"]);
                                  ("user_id", Json.JStr "U1");
                                  ("total_cost", Json.JStr "500")]);
                      ("action", Json.JStr "pay");
                      ("is_roll_back", Json.JStr "false")])
          Scenario.gid;
        PipeUnwatch] !! j
       = Some (ConsumerAssign "order_result_topic"
                 (Z.land (Kafka.murmur2
                            (Kafka.encode
                               (uuids Scenario.shop (drawn Scenario.stocked))))
                         0x7fffffff
                  mod Z.of_nat (length all_partitions))).
Proof.
  eapply (subscription_precedes_publication Scenario.order_id Scenario.shop
            Scenario.stocked _ 3 "payment_processing_topic").
  - vm_compute. reflexivity.
  - reflexivity.
Defined.




(** C2 fails on the code: for this checkout, with four partitions on
    every topic, the handler assigns its consumer to partition 1 of the
    results topic, while the producer's default partitioner, which hashes
    the JSON-serialized key, sends messages keyed by the same correlation
    id to partition 3. *)
Theorem reply_partition_differs_from_producer_partition :
  let run := checkout Scenario.order_id Scenario.shop Scenario.stocked in
  uuids Scenario.shop (drawn Scenario.stocked) = Scenario.gid
  /\ In (ConsumerAssign "order_result_topic" 1) (log (fst run))
  /\ key_serializer Scenario.gid
     = Kafka.encode (String Json.dquote (Scenario.gid ++ String Json.dquote ""))
  /\ producer_partition Scenario.shop "stock_check_topic" Scenario.gid = Some 3
  /\ producer_partition Scenario.shop "payment_processing_topic" Scenario.gid = Some 3
  /\ producer_partition Scenario.shop "order_result_topic" Scenario.gid = Some 3.
Proof.
  cbv zeta. conjuncts; try (vm_compute; reflexivity).
  vm_compute. tauto.
Qed.

(** The hash agrees with the reference values of the Java client and of
    kafka-python's own tests. *)
Example murmur2_reference_vectors :
  map (fun s => Kafka.murmur2 (Kafka.encode s))
      [""; "abc"; "21"; "foobar"; "a-little-bit-long-string"]
  = [275646681; 479470107; 3321034988; 3504634814; 3308985760]
  /\ map (fun s => Kafka.default_partitioner (Kafka.encode s)
                     (map Z.of_nat (seq 0 1000)))
         [""; "a"; "ab"; "abc"; "123456789"]
     = [Some 681; Some 524; Some 434; Some 107; Some 566].
Proof. split; vm_compute; reflexivity. Qed.

(** ** Concurrent requests on one order *)

(** C3 fails on the code.  The read of [add_item] is itself a
    MULTI/EXEC block, and EXEC drops the watch placed just before it;
    the commit that follows is checked against nothing.  Here a
    concurrent addItem of I2 commits between the read and the commit of
    this request: the request still answers 200 and writes the items and
    total it computed from its stale snapshot, so the concurrent commit
    is lost. *)
Theorem add_item_overwrites_concurrent_commit :
  let key := "order:" ++ Scenario.order_id in
  let concurrent := [Redis.HSET key "items" (Json.dumps ["I2"]);
                     Redis.HSET key "total_cost" (PyInt.to_bytes 300)] in
  let st := with_others [[]; []; concurrent] Scenario.created in
  let run := add_item Scenario.order_id "I1" Scenario.shop st in
  stored (Scenario.after (add_item Scenario.order_id "I2") Scenario.shop
            Scenario.created) Scenario.order_id
  = Redis.hash_at (fst (Redis.run_all concurrent (server Scenario.created))) key
  /\ order_items Scenario.created Scenario.order_id = Some []
  /\ snd run = Val (success, 200)
  /\ order_items (fst run) Scenario.order_id = Some ["I1"]
  /\ order_total (fst run) Scenario.order_id = Some 500.
Proof.
  cbv zeta. conjuncts; vm_compute; reflexivity.
Qed.

(** The only window the watch covers is the one between WATCH and the
    read: a write that lands there makes the read's EXEC fail, and the
    handler answers 500 with the text of the [WatchError]. *)
Lemma add_item_conflict_before_read :
  let key := "order:" ++ Scenario.order_id in
  let concurrent := [Redis.HSET key "items" (Json.dumps ["I2"]);
                     Redis.HSET key "total_cost" (PyInt.to_bytes 300)] in
  let st := with_others [[]; concurrent] Scenario.created in
  let run := add_item Scenario.order_id "I1" Scenario.shop st in
  snd run = Val (StrDict WatchError, 500)
  /\ order_items (fst run) Scenario.order_id = Some ["I2"]
  /\ order_total (fst run) Scenario.order_id = Some 300.
Proof.
  cbv zeta. conjuncts; vm_compute; reflexivity.
Qed.

(** The same loss on [remove_item]: I1 is removed by this request while
    a concurrent addItem of I2 commits between its read and its commit. *)
Lemma remove_item_overwrites_concurrent_commit :
  let key := "order:" ++ Scenario.order_id in
  let concurrent := [Redis.HSET key "items" (Json.dumps ["I1"; "I2"]);
                     Redis.HSET key "total_cost" (PyInt.to_bytes 800)] in
  let st := with_others [[]; []; concurrent] Scenario.stocked in
  let run := remove_item Scenario.order_id "I1" Scenario.shop st in
  snd run = Val (success, 200)
  /\ order_items (fst run) Scenario.order_id = Some []
  /\ order_total (fst run) Scenario.order_id = Some 0.
Proof.
  cbv zeta. conjuncts; vm_compute; reflexivity.
Qed.

(** ** find *)

Lemma comprehension_find_entry (h : Redis.hash) (items : list string)
  (e : env) (st : state) :
  (forall v, In ("items", v) h -> Json.loads v = Some items) ->
  comprehension find_entry h e st
  = (st, Val (map (fun kv =>
                     (fst kv,
                      if String.eqb (fst kv) "items"
                      then Json.JArr (Json.JStr <$> items)
                      else Json.JStr (snd kv))) h)).
Proof.
  revert st. induction h as [|[key v] h IH]; intros st Hitems.
  - reflexivity.
  - assert (IH' : forall st', comprehension find_entry h e st' = (st', Val (map (fun kv =>
                     (fst kv,
                      if String.eqb (fst kv) "items"
                      then Json.JArr (Json.JStr <$> items)
                      else Json.JStr (snd kv))) h)))
      by (intros st'; apply IH; intros; apply Hitems; now right).
    cbn [comprehension]. rewrite bind_run. unfold find_entry at 1.
    cbn [fst snd map].
    destruct (String.eqb_spec key "items") as [->|Hkey]; cbn [negb].
    + unfold json_loads. rewrite (Hitems v (or_introl eq_refl)).
      rewrite !bind_run, !ret_run. cbv beta iota zeta.
      rewrite bind_run, IH'. reflexivity.
    + rewrite ret_run. cbv beta iota zeta.
      rewrite bind_run, IH'. reflexivity.
Qed.

Lemma items_field_unique (h : Redis.hash) (raw v : string) :
  NoDup (map fst h) ->
  Dict.get "items" h = Some raw ->
  In ("items", v) h -> v = raw.
Proof.
  induction h as [|[key w] h IH]; simpl; [intros _ _ []|].
  intros Hnd Hget Hin. apply NoDup_cons in Hnd. destruct Hnd as [Hfresh Hnd].
  destruct (String.eqb_spec key "items") as [->|Hkey].
  - injection Hget as <-. destruct Hin as [[= ->]|Hin]; [reflexivity|].
    exfalso. apply Hfresh. apply list_elem_of_In.
    apply in_map_iff. now exists ("items", v).
  - destruct Hin as [[= -> _]|Hin]; [contradiction|]. now apply IH.
Qed.

Lemma find_order_decodes (e : env) (st : state) (order_id : string)
  (h : Redis.hash) (raw : string) (items : list string) :
  others st = [] ->
  stored st order_id = Some h ->
  NoDup (map fst h) ->
  Dict.get "items" h = Some raw ->
  Json.loads raw = Some items ->
  response_of (find_order order_id e st)
  = Some (Jsonify (Json.JObj
                     (map (fun kv =>
                             (fst kv,
                              if String.eqb (fst kv) "items"
                              then Json.JArr (Json.JStr <$> items)
                              else Json.JStr (snd kv))) h)), 200).
Proof.
  intros Ho Hs Hnd Hraw Hl.
  destruct st as [srv pp oth clk drw lg]. unfold stored in Hs. simpl in *. subst oth.
  unfold response_of.
  run_handler. rewrite Nat.eqb_refl. run_handler. rewrite Hs. run_handler.
  destruct h as [|kv h]; [discriminate|]. run_handler.
  rewrite (comprehension_find_entry (kv :: h) items).
  - reflexivity.
  - intros v Hin. rewrite (items_field_unique _ raw v Hnd Hraw Hin). exact Hl.
Qed.

Lemma create_order_stores (e : env) (st : state) (user_id : string) :
  others st = [] ->
  stored st (uuids e (drawn st)) = None ->
  let order_id := uuids e (drawn st) in
  let st' := fst (create_order user_id e st) in
  others st' = []
  /\ stored st' order_id
     = Some [("order_id", order_id); ("paid", "False"); ("items", Json.dumps []);
             ("user_id", user_id); ("total_cost", PyInt.to_bytes 0)].
Proof.
  intros Ho Hs.
  destruct st as [srv pp oth clk drw lg]. unfold stored in *. simpl in *. subst oth.
  run_handler. rewrite Hs. rewrite !hash_at_store_hash.
  split; reflexivity.
Qed.

(** C10: [find_order] decodes the [items] field of the stored record
    into a list and returns every other field as the stored string; so
    for an order just created it returns [paid] as the string "False"
    and [total_cost] as the decimal string "0". *)
Theorem find_order_returns_stored_strings :
  (forall (e : env) (st : state) (order_id : string)
          (h : Redis.hash) (raw : string) (items : list string),
      others st = [] ->
      stored st order_id = Some h ->
      NoDup (map fst h) ->
      Dict.get "items" h = Some raw ->
      Json.loads raw = Some items ->
      response_of (find_order order_id e st)
      = Some (Jsonify (Json.JObj
                         (map (fun kv =>
                                 (fst kv,
                                  if String.eqb (fst kv) "items"
                                  then Json.JArr (Json.JStr <$> items)
                                  else Json.JStr (snd kv))) h)), 200))
  /\ (forall (e : env) (st : state) (user_id : string),
         others st = [] ->
         stored st (uuids e (drawn st)) = None ->
         response_of (find_order (uuids e (drawn st)) e
                        (fst (create_order user_id e st)))
         = Some (Jsonify (Json.JObj
                            [("order_id", Json.JStr (uuids e (drawn st)));
                             ("paid", Json.JStr "False");
                             ("items", Json.JArr []);
                             ("user_id", Json.JStr user_id);
                             ("total_cost", Json.JStr "0")]), 200)).
Proof.
  split.
  - exact find_order_decodes.
  - intros e st user_id Ho Hfresh.
    destruct (create_order_stores e st user_id Ho Hfresh) as (Ho' & Hs').
    rewrite (find_order_decodes e _ _ _ (Json.dumps []) [] Ho' Hs').
    + reflexivity.
    + apply (bool_decide_unpack _). vm_compute. exact I.
    + reflexivity.
    + apply loads_dumps.
Qed.

Lemma find_order_returns_stored_strings_witness :
  response_of (find_order Scenario.order_id Scenario.shop Scenario.created)
  = Some (Jsonify (Json.JObj
                     [("order_id", Json.JStr Scenario.order_id);
                      ("paid", Json.JStr "False");
                      ("items", Json.JArr []);
                      ("user_id", Json.JStr "U1");
                      ("total_cost", Json.JStr "0")]), 200)
  /\ response_of (find_order Scenario.order_id Scenario.shop Scenario.stocked)
     = Some (Jsonify (Json.JObj
                        [("order_id", Json.JStr Scenario.order_id);
                         ("paid", Json.JStr "False");
                         ("items", Json.JArr [Json.JStr "I1"]);
                         ("user_id", Json.JStr "U1");
                         ("total_cost", Json.JStr "500")]), 200).
Proof.
  split.
  - apply (proj2 find_order_returns_stored_strings Scenario.shop Scenario.boot "U1").
    + reflexivity.
    + vm_compute. reflexivity.
  - apply (proj1 find_order_returns_stored_strings Scenario.shop Scenario.stocked
             Scenario.order_id
             [("order_id", Scenario.order_id); ("paid", "False");
              ("items", Json.dumps ["I1"]); ("user_id", "U1");
              ("total_cost", "500")]
             (Json.dumps ["I1"]) ["I1"]).
    + reflexivity.
    + vm_compute. reflexivity.
    + apply (bool_decide_unpack _). vm_compute. exact I.
    + reflexivity.
    + vm_compute. reflexivity.
Defined.

(** ** Waiting for the reply *)

Import Reply.

Lemma loop_cons (gid : string) (timeout : Z) (m : message) (msgs : list message)
  (e : env) (st : state) :
  for_message_in_consumer gid timeout (m :: msgs) e st
  = if (clock st + consumer_timeout_ms <=? msg_arrival m)%Z
    then (with_clock (Z.max (clock st) (clock st + consumer_timeout_ms)) st, Val tt)
    else
      let st1 := with_log (log st ++ [ConsumerYield m])
                   (with_clock (Z.max (clock st) (msg_arrival m)) st) in
      if matches gid m
      then
        match msg_value m with
        | Json.JObj o =>
          match Dict.get "status" o with
          | Some status => (st1, Return (answer status))
          | None => (st1, Raise (KeyError "status"))
          end
        | _ => (st1, Raise TypeError)
        end
      else if (timeout <? Z.max (clock st) (msg_arrival m))%Z
           then (st1, Val tt)
           else for_message_in_consumer gid timeout msgs e st1.
Proof.
  destruct st as [srv pp oth clk drw lg].
  cbn [for_message_in_consumer].
  cbv [mbind M_bind time sleep_until emit subscript getitem mret M_ret return_
       raise with_clock with_log clock log server pipe others drawn matches
       answer].
  destruct (clk + consumer_timeout_ms <=? msg_arrival m)%Z; [reflexivity|].
  destruct (is_str (msg_key m) gid).
  - destruct (msg_value m) as [s|z|b|l|o]; try reflexivity.
    destruct (Dict.get "status" o) as [status|]; [|reflexivity].
    destruct (is_str status "success"); reflexivity.
  - destruct (timeout <? Z.max clk (msg_arrival m))%Z; reflexivity.
Qed.




Lemma byte_keys_to_str_id (h : Redis.hash) : byte_keys_to_str h = h.
Proof.
  unfold byte_keys_to_str. induction h as [|[k v] h IH]; simpl; [reflexivity|].
  now rewrite IH.
Qed.

(** On an order that is found, with a results topic that has
    partitions, [checkout] answers from the outcome of the waiting loop,
    entered at the time the request started. *)
Lemma checkout_waits (e : env) (st : state) (order_id : string)
  (items : list string) (all_partitions : list Z) :
  others st = [] ->
  order_items st order_id = Some items ->
  topics e "order_result_topic" = Some all_partitions ->
  all_partitions <> [] ->
  exists st0,
    clock st0 = clock st
    /\ response_of (checkout order_id e st)
       = Some match snd (for_message_in_consumer (uuids e (drawn st))
                           (clock st + 10000)
                           (inbox e (Z.land (Kafka.murmur2
                                               (Kafka.encode (uuids e (drawn st))))
                                            0x7fffffff
                                     mod Z.of_nat (length all_partitions)))
                           e st0) with
              | Val _ => (error "Wait too long, quit", 400)
              | Return resp => resp
              | Raise x => (Str x, 500)
              end.
Proof.
  intros Ho Hi Htopic Hne.
  destruct st as [srv pp oth clk drw lg].
  unfold order_items, stored in Hi. simpl in *. subst oth.
  destruct (Redis.hash_at srv ("order:" ++ order_id)) as [h|] eqn:Hs; [|discriminate].
  simpl in Hi.
  destruct (Dict.get "items" h) as [raw|] eqn:Hraw; [|discriminate].
  simpl in Hi.
  assert (Hcount : Z.of_nat (length all_partitions) <> 0)
    by (destruct all_partitions; [contradiction | simpl; lia]).
  remember (Z.of_nat (length all_partitions)) as count eqn:Ecount.
  unfold response_of.
  run_handler. rewrite Nat.eqb_refl. run_handler. rewrite Hs. run_handler.
  rewrite byte_keys_to_str_id.
  destruct h as [|kv h]; [discriminate|].
  run_handler. rewrite Hraw. run_handler. rewrite Hi. run_handler.
  rewrite Htopic. run_handler. rewrite <- !Ecount.
  destruct count as [|c|c]; [contradiction| |]; run_handler;
    match goal with
    | |- context [for_message_in_consumer ?g ?t ?ms e ?s] =>
      exists s; split; [reflexivity|];
      destruct (for_message_in_consumer g t ms e s)
        as [[s1 [[|w ws] stack] [|b o1] c1 d1 l1] [u|r|x]];
      reflexivity
    end.
Qed.




(** * Further properties of the handlers *)

(** ** create and remove *)

Lemma hash_at_drop (k : string) (s : Redis.server) :
  Redis.hash_at (Redis.drop k s) k = None.
Proof. unfold Redis.hash_at, Redis.drop. simpl. apply lookup_delete_eq. Qed.

Lemma hash_at_drop_ne (k k' : string) (s : Redis.server) :
  k <> k' -> Redis.hash_at (Redis.drop k s) k' = Redis.hash_at s k'.
Proof.
  intros Hne. unfold Redis.hash_at, Redis.drop. simpl.
  now apply lookup_delete_ne.
Qed.

Lemma hash_at_store_hash_ne (k k' : string) (h : Redis.hash) (s : Redis.server) :
  k <> k' -> Redis.hash_at (Redis.store_hash k h s) k' = Redis.hash_at s k'.
Proof.
  intros Hne. unfold Redis.hash_at, Redis.store_hash. simpl.
  now apply lookup_insert_ne.
Qed.

(** [create_order] answers 200 with the id it drew and leaves, under
    that id, an order with no items, a zero total, [paid] "False" and the
    caller's user id, whatever was stored under the id before; every
    other key of the store keeps its value. *)
Theorem create_order_creates_empty_order
  (e : env) (st : state) (user_id : string) :
  others st = [] ->
  let order_id := uuids e (drawn st) in
  let run := create_order user_id e st in
  snd run = Val (Jsonify (Json.JObj [("order_id", Json.JStr order_id)]), 200)
  /\ order_items (fst run) order_id = Some []
  /\ order_total (fst run) order_id = Some 0
  /\ (exists h, stored (fst run) order_id = Some h
                /\ Dict.get "paid" h = Some "False"
                /\ Dict.get "user_id" h = Some user_id
                /\ Dict.get "order_id" h = Some order_id)
  /\ (forall k, k <> "order:" ++ order_id ->
                Redis.hash_at (server (fst run)) k = Redis.hash_at (server st) k).
Proof.
  intros Ho.
  destruct st as [srv pp oth clk drw lg]. simpl in Ho. subst oth.
  unfold order_items, order_total, stored.
  run_handler. rewrite !hash_at_store_hash.
  conjuncts.
  - reflexivity.
  - simpl. rewrite !(get_put_ne _ "items") by discriminate.
    rewrite get_put_eq. simpl. apply loads_dumps.
  - simpl. rewrite get_put_eq. simpl. apply PyInt_of_to_bytes.
  - eexists. split; [reflexivity|]. conjuncts.
    + rewrite !(get_put_ne _ "paid") by discriminate. apply get_put_eq.
    + rewrite !(get_put_ne _ "user_id") by discriminate. apply get_put_eq.
    + rewrite !(get_put_ne _ "order_id") by discriminate. apply get_put_eq.
  - intros k Hk. now rewrite !hash_at_store_hash_ne.
Qed.

Lemma create_order_creates_empty_order_witness :
  snd (create_order "U1" Scenario.shop Scenario.boot)
  = Val (Jsonify (Json.JObj [("order_id", Json.JStr Scenario.order_id)]), 200)
  /\ order_items Scenario.created Scenario.order_id = Some []
  /\ order_total Scenario.created Scenario.order_id = Some 0.
Proof.
  destruct (create_order_creates_empty_order Scenario.shop Scenario.boot "U1"
              eq_refl) as (H1 & H2 & H3 & _).
  exact (conj H1 (conj H2 H3)).
Defined.

(** [remove_order] on a stored order answers 200, deletes the record and
    touches no other key. *)
Theorem remove_order_deletes
  (e : env) (st : state) (order_id : string) (h : Redis.hash) :
  others st = [] ->
  stored st order_id = Some h ->
  let run := remove_order order_id e st in
  snd run = Val (success, 200)
  /\ stored (fst run) order_id = None
  /\ (forall k, k <> "order:" ++ order_id ->
                Redis.hash_at (server (fst run)) k = Redis.hash_at (server st) k).
Proof.
  intros Ho Hs.
  destruct st as [srv pp oth clk drw lg]. unfold stored in *. simpl in *. subst oth.
  run_handler. rewrite Hs. run_handler.
  conjuncts.
  - reflexivity.
  - apply hash_at_drop.
  - intros k Hk. now apply hash_at_drop_ne.
Qed.

Lemma remove_order_deletes_witness :
  snd (remove_order Scenario.order_id Scenario.shop Scenario.stocked)
  = Val (success, 200)
  /\ stored (fst (remove_order Scenario.order_id Scenario.shop Scenario.stocked))
       Scenario.order_id = None.
Proof.
  destruct (remove_order_deletes Scenario.shop Scenario.stocked Scenario.order_id
              [("order_id", Scenario.order_id); ("paid", "False");
               ("items", Json.dumps ["I1"]); ("user_id", "U1");
               ("total_cost", "500")]
              eq_refl ltac:(vm_compute; reflexivity)) as (H1 & H2 & _).
  exact (conj H1 H2).
Defined.

(** [remove_order] on an id that is not stored answers 400 "Order not
    found" and leaves the store as it was. *)
Theorem remove_order_missing (e : env) (st : state) (order_id : string) :
  others st = [] ->
  stored st order_id = None ->
  let run := remove_order order_id e st in
  snd run = Val (error "Order not found", 400)
  /\ server (fst run) = server st.
Proof.
  intros Ho Hs.
  destruct st as [srv pp oth clk drw lg]. unfold stored in *. simpl in *. subst oth.
  run_handler. rewrite Hs. run_handler. split; reflexivity.
Qed.

Lemma remove_order_missing_witness :
  snd (remove_order "no-such-order" Scenario.shop Scenario.stocked)
  = Val (error "Order not found", 400)
  /\ server (fst (remove_order "no-such-order" Scenario.shop Scenario.stocked))
     = server Scenario.stocked.
Proof.
  apply (remove_order_missing Scenario.shop Scenario.stocked "no-such-order").
  - reflexivity.
  - vm_compute. reflexivity.
Defined.

(** ** addItem *)

(** [add_item] on an id that is not stored answers 400 "The order_key
    does not exist", whatever the item, and leaves the store as it was. *)
Theorem add_item_missing_order
  (e : env) (st : state) (order_id item_id : string) :
  others st = [] ->
  stored st order_id = None ->
  let run := add_item order_id item_id e st in
  snd run = Val (error "The order_key does not exist", 400)
  /\ server (fst run) = server st.
Proof.
  intros Ho Hs.
  destruct st as [srv pp oth clk drw lg]. unfold stored in *. simpl in *. subst oth.
  run_handler. rewrite Nat.eqb_refl. run_handler. rewrite Hs. run_handler.
  split; reflexivity.
Qed.

Lemma add_item_missing_order_witness :
  snd (add_item "no-such-order" "I1" Scenario.shop Scenario.created)
  = Val (error "The order_key does not exist", 400)
  /\ server (fst (add_item "no-such-order" "I1" Scenario.shop Scenario.created))
     = server Scenario.created.
Proof.
  apply (add_item_missing_order Scenario.shop Scenario.created "no-such-order" "I1").
  - reflexivity.
  - vm_compute. reflexivity.
Defined.

(** [add_item] of an item the price oracle does not know, on a stored
    order, answers 400 "Item not found" and leaves the store as it was. *)
Theorem add_item_unknown_item
  (e : env) (st : state) (order_id item_id : string) (h : Redis.hash) :
  others st = [] ->
  stored st order_id = Some h ->
  prices e item_id = None ->
  let run := add_item order_id item_id e st in
  snd run = Val (error "Item not found", 400)
  /\ server (fst run) = server st.
Proof.
  intros Ho Hs Hp.
  destruct st as [srv pp oth clk drw lg]. unfold stored in *. simpl in *. subst oth.
  run_handler. rewrite Nat.eqb_refl. run_handler. rewrite Hs. run_handler.
  rewrite Hp. run_handler. split; reflexivity.
Qed.

Lemma add_item_unknown_item_witness :
  snd (add_item Scenario.order_id "I9" Scenario.shop Scenario.created)
  = Val (error "Item not found", 400)
  /\ server (fst (add_item Scenario.order_id "I9" Scenario.shop Scenario.created))
     = server Scenario.created.
Proof.
  apply (add_item_unknown_item Scenario.shop Scenario.created Scenario.order_id "I9"
           [("order_id", Scenario.order_id); ("paid", "False");
            ("items", Json.dumps []); ("user_id", "U1"); ("total_cost", "0")]).
  - reflexivity.
  - vm_compute. reflexivity.
  - reflexivity.
Defined.

Lemma add_item_record (e : env) (st : state) (order_id item_id : string)
  (h : Redis.hash) (raw cost : string) (items : list string) (total price : Z) :
  others st = [] ->
  stored st order_id = Some h ->
  Dict.get "items" h = Some raw ->
  Json.loads raw = Some items ->
  Dict.get "total_cost" h = Some cost ->
  PyInt.of_bytes cost = Some total ->
  prices e item_id = Some price ->
  let run := add_item order_id item_id e st in
  snd run = Val (success, 200)
  /\ others (fst run) = []
  /\ stored (fst run) order_id
     = Some (Dict.put "total_cost" (PyInt.to_bytes (total + price))
               (Dict.put "items" (Json.dumps (items ++ [item_id])%list) h))
  /\ (forall k, k <> "order:" ++ order_id ->
                Redis.hash_at (server (fst run)) k = Redis.hash_at (server st) k).
Proof.
  intros Ho Hs Hraw Hi Hcost Ht Hp.
  destruct st as [srv pp oth clk drw lg]. unfold stored in *. simpl in *. subst oth.
  run_handler. rewrite Nat.eqb_refl. run_handler. rewrite Hs. run_handler.
  rewrite Hp. run_handler. rewrite Hraw. run_handler. rewrite Hi. run_handler.
  rewrite Hcost. run_handler. rewrite Ht. run_handler.
  rewrite !hash_at_store_hash, ?Hs.
  conjuncts; try reflexivity.
  intros k Hk. now rewrite !hash_at_store_hash_ne.
Qed.

(** [add_item] of an item the oracle prices, on a stored order whose
    [items] and [total_cost] decode, answers 200, appends the item at the
    end of [items], adds the quoted price to [total_cost], and changes
    no other field of the record and no other key of the store. *)
Theorem add_item_appends
  (e : env) (st : state) (order_id item_id : string)
  (h : Redis.hash) (raw cost : string) (items : list string) (total price : Z) :
  others st = [] ->
  stored st order_id = Some h ->
  Dict.get "items" h = Some raw ->
  Json.loads raw = Some items ->
  Dict.get "total_cost" h = Some cost ->
  PyInt.of_bytes cost = Some total ->
  prices e item_id = Some price ->
  let run := add_item order_id item_id e st in
  snd run = Val (success, 200)
  /\ order_items (fst run) order_id = Some (items ++ [item_id])%list
  /\ order_total (fst run) order_id = Some (total + price)
  /\ (exists h', stored (fst run) order_id = Some h'
                 /\ forall f, f <> "items" -> f <> "total_cost" ->
                              Dict.get f h' = Dict.get f h)
  /\ (forall k, k <> "order:" ++ order_id ->
                Redis.hash_at (server (fst run)) k = Redis.hash_at (server st) k).
Proof.
  intros Ho Hs Hraw Hi Hcost Ht Hp.
  destruct (add_item_record e st order_id item_id h raw cost items total price
              Ho Hs Hraw Hi Hcost Ht Hp) as (Hresp & _ & Hs' & Hother).
  cbv zeta. unfold order_items, order_total. rewrite Hs'. simpl.
  conjuncts.
  - exact Hresp.
  - rewrite get_put_ne, get_put_eq by discriminate. simpl. apply loads_dumps.
  - rewrite get_put_eq. simpl. apply PyInt_of_to_bytes.
  - eexists. split; [reflexivity|]. intros f Hf1 Hf2.
    rewrite !get_put_ne by congruence. reflexivity.
  - exact Hother.
Qed.

Lemma add_item_appends_witness :
  snd (add_item Scenario.order_id "I2" Scenario.shop Scenario.stocked)
  = Val (success, 200)
  /\ order_items (fst (add_item Scenario.order_id "I2" Scenario.shop Scenario.stocked))
       Scenario.order_id = Some ["I1"; "I2"]
  /\ order_total (fst (add_item Scenario.order_id "I2" Scenario.shop Scenario.stocked))
       Scenario.order_id = Some 800.
Proof.
  destruct (add_item_appends Scenario.shop Scenario.stocked Scenario.order_id "I2"
              [("order_id", Scenario.order_id); ("paid", "False");
               ("items", Json.dumps ["I1"]); ("user_id", "U1");
               ("total_cost", "500")]
              (Json.dumps ["I1"]) "500" ["I1"] 500 300
              eq_refl ltac:(vm_compute; reflexivity) eq_refl
              ltac:(vm_compute; reflexivity) eq_refl
              ltac:(vm_compute; reflexivity) eq_refl)
    as (H1 & H2 & H3 & _).
  exact (conj H1 (conj H2 H3)).
Defined.

(** ** removeItem *)

Lemma contains_split (item_id : string) (before after : list string) :
  contains item_id (before ++ item_id :: after) = true.
Proof.
  unfold contains. apply existsb_exists. exists item_id. split.
  - apply in_or_app. right. now left.
  - apply String.eqb_refl.
Qed.

Lemma remove_split (item_id : string) (before after : list string) :
  ~ In item_id before ->
  remove item_id (before ++ item_id :: after) = (before ++ after)%list.
Proof.
  induction before as [|x before IH]; intros Hnot; simpl.
  - now rewrite String.eqb_refl.
  - destruct (String.eqb_spec x item_id) as [->|Hx].
    + exfalso. apply Hnot. now left.
    + rewrite IH; [reflexivity|]. intros Hin. apply Hnot. now right.
Qed.

Lemma remove_item_record (e : env) (st : state) (order_id item_id : string)
  (h : Redis.hash) (raw cost : string) (items : list string) (total price : Z) :
  others st = [] ->
  stored st order_id = Some h ->
  Dict.get "items" h = Some raw ->
  Json.loads raw = Some items ->
  Dict.get "total_cost" h = Some cost ->
  PyInt.of_bytes cost = Some total ->
  prices e item_id = Some price ->
  contains item_id items = true ->
  let run := remove_item order_id item_id e st in
  snd run = Val (success, 200)
  /\ others (fst run) = []
  /\ stored (fst run) order_id
     = Some (Dict.put "total_cost" (PyInt.to_bytes (total - price))
               (Dict.put "items" (Json.dumps (remove item_id items)) h))
  /\ (forall k, k <> "order:" ++ order_id ->
                Redis.hash_at (server (fst run)) k = Redis.hash_at (server st) k).
Proof.
  intros Ho Hs Hraw Hi Hcost Ht Hp Hin.
  destruct st as [srv pp oth clk drw lg]. unfold stored in *. simpl in *. subst oth.
  run_handler. rewrite Nat.eqb_refl. run_handler. rewrite Hs. run_handler.
  destruct h as [|kv h]; [discriminate|]. run_handler.
  rewrite Hp. run_handler. rewrite Hraw. run_handler. rewrite Hi. run_handler.
  rewrite Hin. run_handler.
  rewrite Hcost. run_handler. rewrite Ht. run_handler.
  rewrite !hash_at_store_hash, ?Hs.
  conjuncts; try reflexivity.
  intros k Hk. now rewrite !hash_at_store_hash_ne.
Qed.

(** [remove_item] of an item that occurs in the order, while the oracle
    prices it, answers 200, drops the first occurrence of the item from
    [items] and only that one, subtracts the quoted price from
    [total_cost], and changes no other field of the record and no other
    key of the store. *)
Theorem remove_item_removes_first_occurrence
  (e : env) (st : state) (order_id item_id : string)
  (h : Redis.hash) (raw cost : string) (before after : list string)
  (total price : Z) :
  others st = [] ->
  stored st order_id = Some h ->
  Dict.get "items" h = Some raw ->
  Json.loads raw = Some (before ++ item_id :: after)%list ->
  ~ In item_id before ->
  Dict.get "total_cost" h = Some cost ->
  PyInt.of_bytes cost = Some total ->
  prices e item_id = Some price ->
  let run := remove_item order_id item_id e st in
  snd run = Val (success, 200)
  /\ order_items (fst run) order_id = Some (before ++ after)%list
  /\ order_total (fst run) order_id = Some (total - price)
  /\ (exists h', stored (fst run) order_id = Some h'
                 /\ forall f, f <> "items" -> f <> "total_cost" ->
                              Dict.get f h' = Dict.get f h)
  /\ (forall k, k <> "order:" ++ order_id ->
                Redis.hash_at (server (fst run)) k = Redis.hash_at (server st) k).
Proof.
  intros Ho Hs Hraw Hi Hbefore Hcost Ht Hp.
  destruct (remove_item_record e st order_id item_id h raw cost _ total price
              Ho Hs Hraw Hi Hcost Ht Hp (contains_split _ _ _))
    as (Hresp & _ & Hs' & Hother).
  cbv zeta. unfold order_items, order_total. rewrite Hs'. simpl.
  conjuncts.
  - exact Hresp.
  - rewrite get_put_ne, get_put_eq by discriminate. simpl.
    rewrite loads_dumps. now rewrite remove_split.
  - rewrite get_put_eq. simpl. apply PyInt_of_to_bytes.
  - eexists. split; [reflexivity|]. intros f Hf1 Hf2.
    rewrite !get_put_ne by congruence. reflexivity.
  - exact Hother.
Qed.

Lemma remove_item_removes_first_occurrence_witness :
  let st := Scenario.after (add_item Scenario.order_id "I1") Scenario.shop
              (Scenario.after (add_item Scenario.order_id "I2") Scenario.shop
                 Scenario.stocked) in
  order_items st Scenario.order_id = Some ["I1"; "I2"; "I1"]
  /\ snd (remove_item Scenario.order_id "I1" Scenario.shop st) = Val (success, 200)
  /\ order_items (fst (remove_item Scenario.order_id "I1" Scenario.shop st))
       Scenario.order_id = Some ["I2"; "I1"]
  /\ order_total (fst (remove_item Scenario.order_id "I1" Scenario.shop st))
       Scenario.order_id = Some 800.
Proof.
  cbv zeta. split; [vm_compute; reflexivity|].
  destruct (remove_item_removes_first_occurrence Scenario.shop
              (Scenario.after (add_item Scenario.order_id "I1") Scenario.shop
                 (Scenario.after (add_item Scenario.order_id "I2") Scenario.shop
                    Scenario.stocked))
              Scenario.order_id "I1"
              [("order_id", Scenario.order_id); ("paid", "False");
               ("items", Json.dumps ["I1"; "I2"; "I1"]); ("user_id", "U1");
               ("total_cost", "1300")]
              (Json.dumps ["I1"; "I2"; "I1"]) "1300" [] ["I2"; "I1"] 1300 500
              eq_refl ltac:(vm_compute; reflexivity) eq_refl
              ltac:(vm_compute; reflexivity) ltac:(simpl; tauto) eq_refl
              ltac:(vm_compute; reflexivity) eq_refl)
    as (H1 & H2 & H3 & _).
  exact (conj H1 (conj H2 H3)).
Defined.

Lemma contains_false_not_in (item_id : string) (items : list string) :
  contains item_id items = false -> ~ In item_id items.
Proof.
  unfold contains. intros Hc Hin.
  assert (existsb (String.eqb item_id) items = true).
  { apply existsb_exists. exists item_id. split; [exact Hin|apply String.eqb_refl]. }
  congruence.
Qed.

(** addItem followed by removeItem of the same item, at an unchanged
    price, restores [total_cost]; it restores [items] as well when the
    item was not already in the order.  (When it was, the earlier
    occurrence is the one removed.) *)
Theorem add_then_remove_restores
  (e : env) (st : state) (order_id item_id : string)
  (items : list string) (total price : Z) :
  others st = [] ->
  order_items st order_id = Some items ->
  order_total st order_id = Some total ->
  prices e item_id = Some price ->
  let st1 := fst (add_item order_id item_id e st) in
  let st2 := fst (remove_item order_id item_id e st1) in
  snd (remove_item order_id item_id e st1) = Val (success, 200)
  /\ order_total st2 order_id = Some total
  /\ order_items st2 order_id = Some (remove item_id (items ++ [item_id]))
  /\ (contains item_id items = false -> order_items st2 order_id = Some items).
Proof.
  intros Ho Hi Ht Hp.
  destruct (add_item_ok e st order_id item_id items total price Ho Hi Ht Hp)
    as (Ho1 & Hi1 & Ht1 & _).
  assert (Hin : contains item_id (items ++ [item_id]) = true)
    by apply contains_split.
  destruct (remove_item_ok e _ order_id item_id _ _ price Ho1 Hi1 Ht1 Hp Hin)
    as (_ & Hi2 & Ht2 & Hresp).
  cbv zeta. conjuncts.
  - exact Hresp.
  - rewrite Ht2. f_equal. lia.
  - exact Hi2.
  - intros Hc. rewrite Hi2.
    rewrite remove_split by now apply contains_false_not_in.
    now rewrite app_nil_r.
Qed.

Lemma add_then_remove_restores_witness :
  let st1 := fst (add_item Scenario.order_id "I2" Scenario.shop Scenario.stocked) in
  let st2 := fst (remove_item Scenario.order_id "I2" Scenario.shop st1) in
  order_total st2 Scenario.order_id = Some 500
  /\ order_items st2 Scenario.order_id = Some ["I1"].
Proof.
  destruct (add_then_remove_restores Scenario.shop Scenario.stocked
              Scenario.order_id "I2" ["I1"] 500 300
              eq_refl ltac:(vm_compute; reflexivity)
              ltac:(vm_compute; reflexivity) eq_refl)
    as (_ & H2 & _ & H4).
  exact (conj H2 (H4 eq_refl)).
Defined.

(** ** find and checkout on a missing order *)

(** [find_order] on an id that is not stored answers 400 "Order not
    found". *)
Theorem find_order_missing (e : env) (st : state) (order_id : string) :
  others st = [] ->
  stored st order_id = None ->
  snd (find_order order_id e st) = Val (error "Order not found", 400).
Proof.
  intros Ho Hs.
  destruct st as [srv pp oth clk drw lg]. unfold stored in *. simpl in *. subst oth.
  run_handler. rewrite Nat.eqb_refl. run_handler. rewrite Hs. run_handler.
  reflexivity.
Qed.

Lemma find_order_missing_witness :
  snd (find_order "no-such-order" Scenario.shop Scenario.stocked)
  = Val (error "Order not found", 400).
Proof.
  apply (find_order_missing Scenario.shop Scenario.stocked "no-such-order").
  - reflexivity.
  - vm_compute. reflexivity.
Defined.

(** Deleting an order and then looking it up answers 400 "Order not
    found". *)
Theorem remove_order_then_find
  (e : env) (st : state) (order_id : string) (h : Redis.hash) :
  others st = [] ->
  stored st order_id = Some h ->
  snd (find_order order_id e (fst (remove_order order_id e st)))
  = Val (error "Order not found", 400).
Proof.
  intros Ho Hs.
  destruct st as [srv pp oth clk drw lg]. unfold stored in *. simpl in *. subst oth.
  run_handler. rewrite Hs. run_handler. rewrite Nat.eqb_refl. run_handler.
  rewrite hash_at_drop. reflexivity.
Qed.

Lemma remove_order_then_find_witness :
  snd (find_order Scenario.order_id Scenario.shop
         (fst (remove_order Scenario.order_id Scenario.shop Scenario.stocked)))
  = Val (error "Order not found", 400).
Proof.
  apply (remove_order_then_find Scenario.shop Scenario.stocked Scenario.order_id
           [("order_id", Scenario.order_id); ("paid", "False");
            ("items", Json.dumps ["I1"]); ("user_id", "U1");
            ("total_cost", "500")]).
  - reflexivity.
  - vm_compute. reflexivity.
Defined.

(** [checkout] on an id that is not stored answers 400 "Order not
    found" without creating a consumer or publishing anything, and
    leaves the store as it was. *)
Theorem checkout_missing_order (e : env) (st : state) (order_id : string) :
  others st = [] ->
  stored st order_id = None ->
  let run := checkout order_id e st in
  snd run = Val (error "Order not found", 400)
  /\ log (fst run) = (log st ++ [PipeUnwatch])%list
  /\ server (fst run) = server st.
Proof.
  intros Ho Hs.
  destruct st as [srv pp oth clk drw lg]. unfold stored in *. simpl in *. subst oth.
  run_handler. rewrite Nat.eqb_refl. run_handler. rewrite Hs. run_handler.
  conjuncts; reflexivity.
Qed.

Lemma checkout_missing_order_witness :
  snd (checkout "no-such-order" Scenario.shop Scenario.stocked)
  = Val (error "Order not found", 400)
  /\ log (fst (checkout "no-such-order" Scenario.shop Scenario.stocked))
     = (log Scenario.stocked ++ [PipeUnwatch])%list
  /\ server (fst (checkout "no-such-order" Scenario.shop Scenario.stocked))
     = server Scenario.stocked.
Proof.
  apply (checkout_missing_order Scenario.shop Scenario.stocked "no-such-order").
  - reflexivity.
  - vm_compute. reflexivity.
Defined.

(** ** Handlers that only read the store *)

Import Footprint.

Lemma reads_only_pure {A : Type} (c : M A) :
  (forall e st, fst (c e st) = st) -> reads_only c.
Proof. intros Hc e st Hst. rewrite Hc. auto. Qed.

Lemma reads_only_bind {A B : Type} (c : M A) (f : A -> M B) :
  reads_only c -> (forall a, reads_only (f a)) -> reads_only (c ≫= f).
Proof.
  intros Hc Hf e st Hst. rewrite bind_run. destruct (Hc e st Hst) as [Hst' Hsrv].
  destruct (c e st) as [st' [a|r|x]]; simpl in *; [|auto..].
  destruct (Hf a e st' Hst') as [Hst'' Hsrv']. split; [assumption|congruence].
Qed.

Lemma reads_only_ret {A : Type} (a : A) : reads_only (mret a : M A).
Proof. now apply reads_only_pure. Qed.

Lemma reads_only_return {A : Type} (r : response) : reads_only (return_ r : M A).
Proof. now apply reads_only_pure. Qed.

Lemma reads_only_raise {A : Type} (x : exn) : reads_only (raise x : M A).
Proof. now apply reads_only_pure. Qed.

Lemma reads_only_multi : reads_only multi.
Proof. now apply reads_only_pure. Qed.

Lemma reads_only_time : reads_only time.
Proof. now apply reads_only_pure. Qed.

Lemma reads_only_get_item_price (item_id : string) :
  reads_only (get_item_price item_id).
Proof. now apply reads_only_pure. Qed.

Lemma reads_only_partitions_for_topic (t : string) :
  reads_only (partitions_for_topic t).
Proof. now apply reads_only_pure. Qed.

Lemma reads_only_index {A : Type} (i : nat) (l : list A) : reads_only (index i l).
Proof.
  unfold index. destruct (nth_error l i);
    [apply reads_only_ret | apply reads_only_raise].
Qed.

Lemma reads_only_getitem {V : Type} (k : string) (d : list (string * V)) :
  reads_only (getitem k d).
Proof.
  unfold getitem. destruct (Dict.get k d);
    [apply reads_only_ret | apply reads_only_raise].
Qed.

Lemma reads_only_json_loads (s : string) : reads_only (json_loads s).
Proof.
  unfold json_loads. destruct (Json.loads s);
    [apply reads_only_ret | apply reads_only_raise].
Qed.

Lemma reads_only_int (s : string) : reads_only (int s).
Proof.
  unfold int. destruct (PyInt.of_bytes s);
    [apply reads_only_ret | apply reads_only_raise].
Qed.

Lemma reads_only_as_hash (x : Redis.reply) : reads_only (as_hash x).
Proof. destruct x; [apply reads_only_raise | apply reads_only_ret]. Qed.

Lemma reads_only_len {A : Type} (x : option (list A)) : reads_only (len x).
Proof. destruct x; [apply reads_only_ret | apply reads_only_raise]. Qed.

Lemma reads_only_modulo (a b : Z) : reads_only (modulo a b).
Proof.
  unfold modulo. destruct (b =? 0)%Z;
    [apply reads_only_raise | apply reads_only_ret].
Qed.

Lemma reads_only_partition_index (gid : string) (count : Z) :
  reads_only (partition_index gid count).
Proof. apply reads_only_modulo. Qed.

Lemma reads_only_subscript (msg : Json.value) (k : string) :
  reads_only (subscript msg k).
Proof. destruct msg; simpl; try apply reads_only_raise. apply reads_only_getitem. Qed.

Lemma reads_only_emit (ev : event) : reads_only (emit ev).
Proof. intros e [srv pp oth clk drw lg] Hst. auto. Qed.

Lemma reads_only_uuid4 : reads_only uuid4.
Proof. intros e [srv pp oth clk drw lg] Hst. auto. Qed.

Lemma reads_only_sleep_until (t : Z) : reads_only (sleep_until t).
Proof. intros e [srv pp oth clk drw lg] Hst. auto. Qed.

Lemma reads_only_pipeline : reads_only pipeline.
Proof. intros e [srv pp oth clk drw lg] [Ho _]. repeat split; auto. Qed.

Lemma reads_only_reset : reads_only reset.
Proof. intros e [srv pp oth clk drw lg] [Ho _]. repeat split; auto. Qed.

Lemma reads_only_interfere : reads_only interfere.
Proof.
  intros e [srv pp oth clk drw lg] [Ho Hstack]. simpl in Ho. subst oth.
  repeat split; auto.
Qed.

Lemma reads_only_watch (key : string) : reads_only (watch key).
Proof.
  intros e [srv [ws stack] oth clk drw lg] [Ho Hstack]. simpl in Ho. subst oth.
  repeat split; auto.
Qed.

Lemma reads_only_queue (c : Redis.command) :
  read_only c = true -> reads_only (queue c).
Proof.
  intros Hc e [srv [ws stack] oth clk drw lg] [Ho Hstack]. simpl in *.
  split; [|reflexivity]. split; [exact Ho|]. simpl.
  rewrite forallb_app. simpl. now rewrite Hstack, Hc.
Qed.

Lemma run_all_read_only (cs : list Redis.command) (s : Redis.server) :
  forallb read_only cs = true -> fst (Redis.run_all cs s) = s.
Proof.
  revert s. induction cs as [|c cs IH]; intros s Hcs; [reflexivity|].
  simpl in Hcs. apply andb_prop in Hcs. destruct Hcs as [Hc Hcs].
  simpl. destruct c; try discriminate; simpl;
    specialize (IH s Hcs); destruct (Redis.run_all cs s); simpl in *; exact IH.
Qed.

Lemma execute_run (e : env) (st : state) :
  others st = [] ->
  execute e st
  = match Redis.command_stack (pipe st), Redis.watched (pipe st) with
    | [], [] => (st, Val [])
    | _, _ =>
      if Redis.unchanged (server st) (Redis.watched (pipe st))
      then (with_pipe Redis.fresh
              (with_server
                 (fst (Redis.run_all (Redis.command_stack (pipe st)) (server st)))
                 st),
            Val (snd (Redis.run_all (Redis.command_stack (pipe st)) (server st))))
      else (with_pipe Redis.fresh st, Raise WatchError)
    end.
Proof.
  destruct st as [srv [ws stack] oth clk drw lg]. simpl. intros ->.
  unfold execute. cbn [pipe Redis.command_stack Redis.watched interfere others].
  destruct stack as [|c stack], ws as [|w ws]; try reflexivity;
    cbv beta iota zeta; cbn [server];
    (destruct (Redis.unchanged _ _); [|reflexivity]);
    destruct (Redis.run_all _ _); reflexivity.
Qed.

Lemma reads_only_execute : reads_only execute.
Proof.
  intros e st [Ho Hstack]. rewrite (execute_run e st Ho).
  pose proof (run_all_read_only _ (server st) Hstack) as Hrun.
  destruct st as [srv [ws stack] oth clk drw lg]. simpl in *. subst oth.
  destruct stack as [|c stack], ws as [|w ws];
    try (repeat split; auto; fail);
    (destruct (Redis.unchanged _ _); [|repeat split; auto]);
    simpl; repeat split; auto.
Qed.

Lemma reads_only_unwatch : reads_only unwatch.
Proof.
  intros e [srv [ws stack] oth clk drw lg] [Ho Hstack]. simpl in *. subst oth.
  destruct ws; repeat split; auto.
Qed.

Create HintDb reads discriminated.
#[local] Hint Resolve reads_only_ret reads_only_return reads_only_raise
  reads_only_multi reads_only_time reads_only_get_item_price
  reads_only_partitions_for_topic reads_only_index reads_only_getitem
  reads_only_json_loads reads_only_int reads_only_as_hash reads_only_len
  reads_only_modulo reads_only_partition_index reads_only_subscript
  reads_only_emit reads_only_uuid4 reads_only_sleep_until reads_only_pipeline
  reads_only_reset reads_only_interfere reads_only_watch reads_only_execute
  reads_only_unwatch : reads.

Ltac reading :=
  repeat first
    [ solve [auto with reads]
    | apply reads_only_bind; [| intros ?]
    | apply reads_only_queue; reflexivity
    | match goal with
      | |- reads_only (match ?x with _ => _ end) => destruct x
      end ].

Lemma reads_only_find_entry (kv : string * string) : reads_only (find_entry kv).
Proof. destruct kv as [key v]. unfold find_entry. reading. Qed.

Lemma reads_only_comprehension {A B : Type} (f : A -> M B) (l : list A) :
  (forall a, reads_only (f a)) -> reads_only (comprehension f l).
Proof.
  intros Hf. induction l as [|a l IH]; simpl; [apply reads_only_ret|].
  apply reads_only_bind; [apply Hf | intros b].
  apply reads_only_bind; [apply IH | intros bs]. apply reads_only_ret.
Qed.

Lemma reads_only_for_message_in_consumer (gid : string) (timeout : Z)
  (msgs : list message) :
  reads_only (for_message_in_consumer gid timeout msgs).
Proof.
  induction msgs as [|message msgs IH]; simpl; [reading|].
  apply reads_only_bind; [reading | intros t].
  destruct (t + consumer_timeout_ms <=? msg_arrival message)%Z; [reading|].
  apply reads_only_bind; [reading | intros _].
  apply reads_only_bind; [reading | intros _].
  destruct (is_str (msg_key message) gid).
  - reading; destruct (is_str _ _); reading.
  - apply reads_only_bind; [reading | intros t'].
    destruct (timeout <? t')%Z; [reading | exact IH].
Qed.

#[local] Hint Resolve reads_only_find_entry reads_only_comprehension
  reads_only_for_message_in_consumer : reads.

Lemma reads_only_try (body : M response) (handler : exn -> response)
  (cleanup : M unit) :
  reads_only body -> reads_only cleanup ->
  reads_only (try_except_finally body handler cleanup).
Proof.
  intros Hb Hc e st Hst. unfold try_except_finally.
  destruct (Hb e st Hst) as [Hst1 Hsrv1].
  destruct (body e st) as [st1 res]. simpl in *.
  destruct (Hc e st1 Hst1) as [Hst2 Hsrv2].
  destruct (cleanup e st1) as [st2 u]. simpl in *.
  split; [assumption | congruence].
Qed.

Lemma reads_only_find_order (order_id : string) : reads_only (find_order order_id).
Proof.
  unfold find_order.
  apply reads_only_bind; [reading | intros _].
  apply reads_only_try; [|reading].
  reading.
Qed.

Lemma reads_only_checkout (order_id : string) : reads_only (checkout order_id).
Proof.
  unfold checkout.
  apply reads_only_bind; [reading | intros gid].
  apply reads_only_bind; [reading | intros _].
  apply reads_only_try; [|reading].
  reading. all: apply reads_only_pure; reflexivity.
Qed.

Lemma undisturbed_start (st : state) (e : env) :
  others st = [] -> undisturbed (fst (pipeline e st)).
Proof. destruct st as [srv pp oth clk drw lg]. intros Ho. split; auto. Qed.

(** [find_order] never changes the store, whatever it answers (the
    order, 400 for a missing order, or 500 for a record it cannot
    decode). *)
Theorem find_order_leaves_store (e : env) (st : state) (order_id : string) :
  others st = [] ->
  server (fst (find_order order_id e st)) = server st.
Proof.
  intros Ho. unfold find_order. rewrite bind_run. cbn [pipeline].
  match goal with
  | |- server (fst (try_except_finally ?b ?h ?c e ?st0)) = _ =>
    assert (Hr : reads_only (try_except_finally b h c))
      by (apply reads_only_try; reading);
    destruct (Hr e st0) as [_ Hsrv]
  end.
  - exact (undisturbed_start st e Ho).
  - rewrite Hsrv. now destruct st.
Qed.

Lemma find_order_leaves_store_witness :
  server (fst (find_order Scenario.order_id Scenario.shop Scenario.stocked))
  = server Scenario.stocked.
Proof.
  apply (find_order_leaves_store Scenario.shop Scenario.stocked Scenario.order_id).
  reflexivity.
Defined.

(** [checkout] never changes the store, on any path: the order it
    checks out keeps its [items], its [total_cost] and its [paid] field,
    whether the saga succeeds, fails, times out or raises. *)
Theorem checkout_leaves_store (e : env) (st : state) (order_id : string) :
  others st = [] ->
  server (fst (checkout order_id e st)) = server st.
Proof.
  intros Ho. unfold checkout. rewrite bind_run. cbn [uuid4].
  rewrite bind_run. cbn [pipeline].
  match goal with
  | |- server (fst (try_except_finally ?b ?h ?c e ?st0)) = _ =>
    assert (Hr : reads_only (try_except_finally b h c))
      by (apply reads_only_try; reading; apply reads_only_pure; reflexivity);
    destruct (Hr e st0) as [_ Hsrv]
  end.
  - destruct st as [srv pp oth clk drw lg]. split; auto.
  - rewrite Hsrv. now destruct st.
Qed.

Lemma checkout_leaves_store_witness :
  server (fst (checkout Scenario.order_id Scenario.shop_with_late_reply
                 Scenario.stocked))
  = server Scenario.stocked.
Proof.
  apply (checkout_leaves_store Scenario.shop_with_late_reply Scenario.stocked
           Scenario.order_id).
  reflexivity.
Defined.

(** ** Writes happen only on success *)

Lemma writes_bind {A B : Type} (c : M A) (f : A -> M B) :
  reads_only c -> (forall a, writes_only_on_success (f a)) ->
  writes_only_on_success (c ≫= f).
Proof.
  intros Hc Hf e st Hst. rewrite bind_run.
  destruct (Hc e st Hst) as [[Ho' Hstack'] Hsrv].
  destruct (c e st) as [st' [a|r|x]]; simpl in *; [|left; auto..].
  destruct (Hf a e st' (conj Ho' Hstack')) as [[Ho'' Hsrv'']|Hok].
  - left. split; [assumption | congruence].
  - right. exact Hok.
Qed.

Lemma writes_reads {A : Type} (c : M A) :
  reads_only c -> writes_only_on_success c.
Proof.
  intros Hc e st Hst. destruct (Hc e st Hst) as [[Ho' _] Hsrv]. left. auto.
Qed.

(** The commit of [add_item] and [remove_item]: two buffered HSETs, EXEC,
    and the success answer. *)
Lemma writes_commit (c1 c2 : Redis.command) :
  writes_only_on_success
    (multi ;; queue c1 ;; queue c2 ;; execute ;; (return_ (success, 200) : M response)).
Proof.
  intros e [srv [ws stack] oth clk drw lg] [Ho Hstack]. simpl in Ho. subst oth.
  rewrite !bind_run. cbn [multi mret M_ret]. cbv beta iota.
  rewrite !bind_run. cbn [queue pipe with_pipe Redis.watched Redis.command_stack].
  cbv beta iota zeta.
  rewrite !bind_run. cbn [queue pipe with_pipe Redis.watched Redis.command_stack].
  cbv beta iota zeta.
  rewrite bind_run, execute_run by reflexivity.
  cbn [pipe Redis.watched Redis.command_stack server].
  destruct ((stack ++ [c1]) ++ [c2])%list eqn:Estack.
  { apply (f_equal (@length _)) in Estack. rewrite !length_app in Estack.
    simpl in Estack. lia. }
  destruct ws; (destruct (Redis.unchanged _ _); [right; reflexivity | left; auto]).
Qed.

Ltac writing :=
  repeat first
    [ apply writes_commit
    | solve [apply writes_reads; reading]
    | apply writes_bind; [reading | intros ?]
    | match goal with
      | |- writes_only_on_success (match ?x with _ => _ end) => destruct x
      end ].

Lemma unwatch_keeps_server (e : env) (st : state) :
  others st = [] -> server (fst (unwatch e st)) = server st.
Proof.
  destruct st as [srv [ws stack] oth clk drw lg]. simpl. intros ->.
  destruct ws; reflexivity.
Qed.

Lemma writes_try_unwatch (body : M response) (handler : exn -> response)
  (e : env) (st : state) :
  writes_only_on_success body ->
  undisturbed st ->
  snd (try_except_finally body handler unwatch e st) <> Val (success, 200) ->
  server (fst (try_except_finally body handler unwatch e st)) = server st.
Proof.
  intros Hb Hst. unfold try_except_finally.
  destruct (Hb e st Hst) as [[Ho Hsrv]|Hok];
    destruct (body e st) as [st1 res]; simpl in *.
  - intros _. pose proof (unwatch_keeps_server e st1 Ho) as Hu.
    destruct (unwatch e st1) as [st2 u]. simpl in *. congruence.
  - subst res. destruct (unwatch e st1) as [st2 u]. simpl.
    intros Hne. now destruct Hne.
Qed.

(** An [add_item] or [remove_item] that does not answer 200 "success"
    has not changed the store: whatever the stored record looks like
    (missing fields, undecodable items or total) and whatever the oracle
    says, the two fields are written only on the path that answers
    success. *)
Theorem refused_mutation_leaves_store
  (e : env) (st : state) (order_id item_id : string) :
  others st = [] ->
  (snd (add_item order_id item_id e st) <> Val (success, 200) ->
   server (fst (add_item order_id item_id e st)) = server st)
  /\ (snd (remove_item order_id item_id e st) <> Val (success, 200) ->
      server (fst (remove_item order_id item_id e st)) = server st).
Proof.
  intros Ho. split.
  - unfold add_item. rewrite bind_run. cbn [pipeline]. intros Hresp.
    rewrite writes_try_unwatch.
    + now destruct st.
    + writing.
    + exact (undisturbed_start st e Ho).
    + exact Hresp.
  - unfold remove_item. rewrite bind_run. cbn [pipeline]. intros Hresp.
    rewrite writes_try_unwatch.
    + now destruct st.
    + writing.
    + exact (undisturbed_start st e Ho).
    + exact Hresp.
Qed.

Lemma refused_mutation_leaves_store_witness :
  server (fst (add_item Scenario.order_id "I9" Scenario.shop Scenario.stocked))
  = server Scenario.stocked
  /\ server (fst (remove_item Scenario.order_id "I2" Scenario.shop Scenario.stocked))
     = server Scenario.stocked.
Proof.
  destruct (refused_mutation_leaves_store Scenario.shop Scenario.stocked
              Scenario.order_id "I9" eq_refl) as [Hadd _].
  destruct (refused_mutation_leaves_store Scenario.shop Scenario.stocked
              Scenario.order_id "I2" eq_refl) as [_ Hremove].
  split.
  - apply Hadd. vm_compute. discriminate.
  - apply Hremove. vm_compute. discriminate.
Defined.

(** ** The watch is always released *)

Lemma try_state (body : M response) (handler : exn -> response)
  (cleanup : M unit) (e : env) (st : state) :
  fst (try_except_finally body handler cleanup e st)
  = fst (cleanup e (fst (body e st))).
Proof.
  unfold try_except_finally. destruct (body e st) as [st1 res].
  cbn [fst]. destruct (cleanup e st1) as [st2 u]. reflexivity.
Qed.

Lemma unwatch_clears (e : env) (st : state) :
  Redis.watched (pipe (fst (unwatch e st))) = [].
Proof.
  destruct st as [srv [[|w ws] stack] [|b oth] clk drw lg]; reflexivity.
Qed.

(** Every route, on every path and whatever concurrent clients do,
    returns with no key left under WATCH on its pipeline. *)
Theorem handlers_release_the_watch (req : request) (e : env) (st : state) :
  Redis.watched (pipe (fst (handle req e st))) = [].
Proof.
  destruct req as [user_id|order_id|order_id item_id|order_id item_id
                  |order_id|order_id]; simpl.
  - unfold create_order. rewrite bind_run. cbn [uuid4].
    rewrite bind_run. cbn [pipeline]. now rewrite try_state.
  - unfold remove_order. rewrite bind_run. cbn [pipeline]. now rewrite try_state.
  - unfold add_item. rewrite bind_run. cbn [pipeline].
    rewrite try_state. apply unwatch_clears.
  - unfold remove_item. rewrite bind_run. cbn [pipeline].
    rewrite try_state. apply unwatch_clears.
  - unfold find_order. rewrite bind_run. cbn [pipeline].
    rewrite try_state. apply unwatch_clears.
  - unfold checkout. rewrite bind_run. cbn [uuid4].
    rewrite bind_run. cbn [pipeline]. rewrite try_state. apply unwatch_clears.
Qed.

(** ** What checkout publishes *)

Lemma checkout_published (e : env) (st : state) (order_id : string)
  (h : Redis.hash) (raw : string) (items : list string) (all_partitions : list Z) :
  others st = [] ->
  stored st order_id = Some h ->
  Dict.get "items" h = Some raw ->
  Json.loads raw = Some items ->
  topics e "order_result_topic" = Some all_partitions ->
  all_partitions <> [] ->
  exists handed,
    log (fst (checkout order_id e st))
    = (log st
       ++ [ConsumerOpen;
           ConsumerAssign "order_result_topic"
             (Z.land (Kafka.murmur2 (Kafka.encode (uuids e (drawn st)))) 0x7fffffff
              mod Z.of_nat (length all_partitions));
           ProducerSend "stock_check_topic"
             (Json.JObj [("affected_items", Json.JArr (Json.JStr <$> items));
                         ("action", Json.JStr "remove");
                         ("is_roll_back", Json.JStr "false")])
             (uuids e (drawn st));
           ProducerSend "payment_processing_topic"
             (Json.JObj [("order_data",
                          Json.JObj
                            (Dict.put "items" (Json.JArr (Json.JStr <$> items))
                               (map (fun kv => (fst kv, Json.JStr (snd kv))) h)));
                         ("action", Json.JStr "pay");
                         ("is_roll_back", Json.JStr "false")])
             (uuids e (drawn st))]
       ++ map ConsumerYield handed ++ [PipeUnwatch])%list.
Proof.
  intros Ho Hs Hraw Hi Htopic Hne.
  destruct st as [srv pp oth clk drw lg].
  unfold stored in Hs. simpl in *. subst oth.
  assert (Hcount : Z.of_nat (length all_partitions) <> 0)
    by (destruct all_partitions; [contradiction | simpl; lia]).
  remember (Z.of_nat (length all_partitions)) as count eqn:Ecount.
  run_handler. rewrite Nat.eqb_refl. run_handler. rewrite Hs. run_handler.
  rewrite byte_keys_to_str_id.
  destruct h as [|kv h]; [discriminate|].
  run_handler. rewrite Hraw. run_handler. rewrite Hi. run_handler.
  rewrite Htopic. run_handler. rewrite <- !Ecount.
  destruct count as [|c|c]; [contradiction| |]; run_handler;
    match goal with
    | |- context [for_message_in_consumer ?g ?t ?ms e ?s] =>
      destruct (for_message_in_consumer_traces e g t ms s)
        as (evs & Hlog & handed & ->);
      exists handed;
      destruct (for_message_in_consumer g t ms e s)
        as [[s1 [[|w ws] stack] [|b o1] c1 d1 l1] [u|r|x]];
      simpl in Hlog; subst l1; simpl; rewrite <- ?app_assoc; reflexivity
    end.
Qed.

(** On an order that is found, with a results topic that has
    partitions, [checkout] creates its consumer, assigns it, and then
    publishes exactly two messages, both keyed by the correlation id:
    to [stock_check_topic] the decoded item list with action "remove",
    then to [payment_processing_topic] the whole stored record (fields
    as stored strings, [items] as a list) with action "pay".  Nothing else is
    published, and the call ends with [pipe.unwatch()]. *)
Theorem checkout_publishes_two_intents
  (e : env) (st : state) (order_id : string)
  (h : Redis.hash) (raw : string) (items : list string) (all_partitions : list Z) :
  others st = [] ->
  stored st order_id = Some h ->
  Dict.get "items" h = Some raw ->
  Json.loads raw = Some items ->
  topics e "order_result_topic" = Some all_partitions ->
  all_partitions <> [] ->
  exists handed,
    log (fst (checkout order_id e st))
    = (log st
       ++ [ConsumerOpen;
           ConsumerAssign "order_result_topic"
             (Z.land (Kafka.murmur2 (Kafka.encode (uuids e (drawn st)))) 0x7fffffff
              mod Z.of_nat (length all_partitions));
           ProducerSend "stock_check_topic"
             (Json.JObj [("affected_items", Json.JArr (Json.JStr <$> items));
                         ("action", Json.JStr "remove");
                         ("is_roll_back", Json.JStr "false")])
             (uuids e (drawn st));
           ProducerSend "payment_processing_topic"
             (Json.JObj [("order_data",
                          Json.JObj
                            (Dict.put "items" (Json.JArr (Json.JStr <$> items))
                               (map (fun kv => (fst kv, Json.JStr (snd kv))) h)));
                         ("action", Json.JStr "pay");
                         ("is_roll_back", Json.JStr "false")])
             (uuids e (drawn st))]
       ++ map ConsumerYield handed ++ [PipeUnwatch])%list.
Proof. exact (checkout_published e st order_id h raw items all_partitions). Qed.

Lemma checkout_publishes_two_intents_witness :
  exists handed,
    log (fst (checkout Scenario.order_id Scenario.shop_with_late_reply
                Scenario.stocked))
    = (log Scenario.stocked
       ++ [ConsumerOpen;
           ConsumerAssign "order_result_topic" 1;
           ProducerSend "stock_check_topic"
             (Json.JObj [("affected_items", Json.JArr [Json.JStr "I1"]);
                         ("action", Json.JStr "remove");
                         ("is_roll_back", Json.JStr "false")])
             Scenario.gid;
           ProducerSend "payment_processing_topic"
             (Json.JObj [("order_data",
                          Json.JObj [("order_id", Json.JStr Scenario.order_id);
                                     ("paid", Json.JStr "False");
                                     ("items", Json.JArr [Json.JStr "I1"]);
                                     ("user_id", Json.JStr "U1");
                                     ("total_cost", Json.JStr "500")]);
                         ("action", Json.JStr "pay");
                         ("is_roll_back", Json.JStr "false")])
             Scenario.gid]
       ++ map ConsumerYield handed ++ [PipeUnwatch])%list.
Proof.
  apply (checkout_publishes_two_intents Scenario.shop_with_late_reply
           Scenario.stocked Scenario.order_id
           [("order_id", Scenario.order_id); ("paid", "False");
            ("items", Json.dumps ["I1"]); ("user_id", "U1");
            ("total_cost", "500")]
           (Json.dumps ["I1"]) ["I1"] [0; 1; 2; 3]).
  - reflexivity.
  - vm_compute. reflexivity.
  - reflexivity.
  - vm_compute. reflexivity.
  - reflexivity.
  - discriminate.
Defined.

(** When the results topic is unknown to the cluster ([partitions_for_topic]
    gives [None]), [checkout] of a stored order answers 500: the consumer
    has been created, nothing is assigned and nothing is published. *)
Theorem checkout_unknown_topic
  (e : env) (st : state) (order_id : string)
  (h : Redis.hash) (raw : string) (items : list string) :
  others st = [] ->
  stored st order_id = Some h ->
  Dict.get "items" h = Some raw ->
  Json.loads raw = Some items ->
  topics e "order_result_topic" = None ->
  let run := checkout order_id e st in
  snd run = Val (Str TypeError, 500)
  /\ log (fst run) = (log st ++ [ConsumerOpen; PipeUnwatch])%list.
Proof.
  intros Ho Hs Hraw Hi Htopic.
  destruct st as [srv pp oth clk drw lg].
  unfold stored in Hs. simpl in *. subst oth.
  run_handler. rewrite Nat.eqb_refl. run_handler. rewrite Hs. run_handler.
  rewrite byte_keys_to_str_id.
  destruct h as [|kv h]; [discriminate|].
  run_handler. rewrite Hraw. run_handler. rewrite Hi. run_handler.
  rewrite Htopic. run_handler.
  split; [reflexivity|]. now rewrite <- app_assoc.
Qed.

Lemma checkout_unknown_topic_witness :
  let e := {| prices := prices Scenario.shop; topics := fun _ => None;
              inbox := inbox Scenario.shop; uuids := uuids Scenario.shop |} in
  snd (checkout Scenario.order_id e Scenario.stocked) = Val (Str TypeError, 500)
  /\ log (fst (checkout Scenario.order_id e Scenario.stocked))
     = (log Scenario.stocked ++ [ConsumerOpen; PipeUnwatch])%list.
Proof.
  apply (checkout_unknown_topic
           {| prices := prices Scenario.shop; topics := fun _ => None;
              inbox := inbox Scenario.shop; uuids := uuids Scenario.shop |}
           Scenario.stocked Scenario.order_id
           [("order_id", Scenario.order_id); ("paid", "False");
            ("items", Json.dumps ["I1"]); ("user_id", "U1");
            ("total_cost", "500")]
           (Json.dumps ["I1"]) ["I1"]).
  - reflexivity.
  - vm_compute. reflexivity.
  - reflexivity.
  - vm_compute. reflexivity.
  - reflexivity.
Defined.

(** Whenever [checkout] assigns its consumer, it is to
    [order_result_topic] and to an index that is at least 0 and less
    than the number of partitions of that topic. *)
Theorem assigned_partition_in_range
  (order_id : string) (e : env) (st : state) (evs : list event)
  (topic : string) (partition : Z) :
  log (fst (checkout order_id e st)) = (log st ++ evs)%list ->
  In (ConsumerAssign topic partition) evs ->
  topic = "order_result_topic"
  /\ exists all_partitions,
       topics e "order_result_topic" = Some all_partitions
       /\ 0 <= partition < Z.of_nat (length all_partitions).
Proof.
  intros Hlog Hin.
  destruct (checkout_events order_id e st) as (evs0 & Hlog0 & Hevs).
  rewrite Hlog in Hlog0. apply app_inv_head in Hlog0. subst evs.
  apply in_app_or in Hin. destruct Hin as [Hin|[?|[]]]; [|discriminate].
  destruct Hevs as [| |ps list_data order_data handed Htopic Hne]; simpl in Hin.
  - destruct Hin.
  - destruct Hin as [?|[]]. discriminate.
  - destruct Hin as [?|[Hassign|[?|[?|Hin]]]]; try discriminate.
    + injection Hassign as <- <-. split; [reflexivity|].
      exists ps. split; [exact Htopic|].
      apply Z.mod_pos_bound. destruct ps; [contradiction | simpl; lia].
    + apply in_map_iff in Hin. destruct Hin as (m & ? & _). discriminate.
Qed.

Lemma assigned_partition_in_range_witness :
  "order_result_topic" = "order_result_topic"
  /\ exists all_partitions,
       topics Scenario.shop "order_result_topic" = Some all_partitions
       /\ 0 <= 1 < Z.of_nat (length all_partitions).
Proof.
  eapply (assigned_partition_in_range Scenario.order_id Scenario.shop
            Scenario.stocked _ "order_result_topic" 1).
  - vm_compute. reflexivity.
  - right. left. reflexivity.
Defined.

(** A matching reply whose value has no [status] field makes [checkout]
    answer 500: the lookup raises and the handler reports the exception. *)
Theorem checkout_reply_without_status
  (e : env) (st : state) (order_id : string)
  (items : list string) (all_partitions : list Z)
  (m : message) (post : list message) (o : list (string * Json.value)) :
  others st = [] ->
  order_items st order_id = Some items ->
  topics e "order_result_topic" = Some all_partitions ->
  all_partitions <> [] ->
  inbox e (Z.land (Kafka.murmur2 (Kafka.encode (uuids e (drawn st)))) 0x7fffffff
           mod Z.of_nat (length all_partitions)) = m :: post ->
  msg_arrival m < clock st + consumer_timeout_ms ->
  matches (uuids e (drawn st)) m = true ->
  msg_value m = Json.JObj o ->
  Dict.get "status" o = None ->
  response_of (checkout order_id e st) = Some (Str (KeyError "status"), 500).
Proof.
  intros Ho Hi Htopic Hne Hinbox Harr Hm Hvalue Hstatus.
  destruct (checkout_waits e st order_id items all_partitions Ho Hi Htopic Hne)
    as (st0 & Hclock & Hresp).
  rewrite Hresp, Hinbox, loop_cons, Hclock.
  destruct (Z.leb_spec (clock st + consumer_timeout_ms) (msg_arrival m)); [lia|].
  cbv zeta. now rewrite Hm, Hvalue, Hstatus.
Qed.

Lemma checkout_reply_without_status_witness :
  let reply := {| msg_key := Json.JStr Scenario.gid;
                  msg_value := Json.JObj [("state", Json.JStr "success")];
                  msg_arrival := 200 |} in
  let e := Scenario.with_inbox (fun _ => [reply]) Scenario.shop in
  response_of (checkout Scenario.order_id e Scenario.stocked)
  = Some (Str (KeyError "status"), 500).
Proof.
  cbv zeta.
  apply (checkout_reply_without_status
           (Scenario.with_inbox
              (fun _ => [{| msg_key := Json.JStr Scenario.gid;
                            msg_value := Json.JObj [("state", Json.JStr "success")];
                            msg_arrival := 200 |}]) Scenario.shop)
           Scenario.stocked Scenario.order_id
           ["I1"] [0; 1; 2; 3]
           {| msg_key := Json.JStr Scenario.gid;
              msg_value := Json.JObj [("state", Json.JStr "success")];
              msg_arrival := 200 |}
           [] [("state", Json.JStr "success")]).
  - reflexivity.
  - vm_compute. reflexivity.
  - reflexivity.
  - discriminate.
  - reflexivity.
  - vm_compute. reflexivity.
  - vm_compute. reflexivity.
  - reflexivity.
  - reflexivity.
Defined.

(** ** Requests in sequence *)

(** create, then addItem of a priced item, then find: the answer lists
    the item, and [total_cost] is the decimal string of its price. *)
Theorem create_add_find
  (e : env) (st : state) (user_id item_id : string) (price : Z) :
  others st = [] ->
  stored st (uuids e (drawn st)) = None ->
  prices e item_id = Some price ->
  let order_id := uuids e (drawn st) in
  let st1 := fst (create_order user_id e st) in
  let st2 := fst (add_item order_id item_id e st1) in
  response_of (find_order order_id e st2)
  = Some (Jsonify (Json.JObj
                     [("order_id", Json.JStr order_id);
                      ("paid", Json.JStr "False");
                      ("items", Json.JArr [Json.JStr item_id]);
                      ("user_id", Json.JStr user_id);
                      ("total_cost", Json.JStr (PyInt.to_bytes price))]), 200).
Proof.
  intros Ho Hfresh Hp. cbv zeta.
  destruct (create_order_stores e st user_id Ho Hfresh) as (Ho1 & Hs1).
  destruct (add_item_record e _ (uuids e (drawn st)) item_id _
              (Json.dumps []) (PyInt.to_bytes 0) [] 0 price
              Ho1 Hs1 eq_refl (loads_dumps []) eq_refl (PyInt_of_to_bytes 0) Hp)
    as (_ & Ho2 & Hs2 & _).
  rewrite (find_order_decodes e _ _ _ (Json.dumps ([] ++ [item_id])%list)
             [item_id] Ho2 Hs2).
  - reflexivity.
  - apply (bool_decide_unpack _). vm_compute. exact I.
  - reflexivity.
  - apply loads_dumps.
Qed.

Lemma create_add_find_witness :
  response_of (find_order Scenario.order_id Scenario.shop Scenario.stocked)
  = Some (Jsonify (Json.JObj
                     [("order_id", Json.JStr Scenario.order_id);
                      ("paid", Json.JStr "False");
                      ("items", Json.JArr [Json.JStr "I1"]);
                      ("user_id", Json.JStr "U1");
                      ("total_cost", Json.JStr (PyInt.to_bytes 500))]), 200).
Proof.
  apply (create_add_find Scenario.shop Scenario.boot "U1" "I1" 500).
  - reflexivity.
  - vm_compute. reflexivity.
  - reflexivity.
Defined.

(** ** Concurrent writers *)

(** As [run_handler], leaving the commands of the other clients folded. *)
Ltac run_client :=
  cbv [create_order remove_order add_item remove_item find_order checkout
       try_except_finally mbind M_bind mret M_ret pipeline watch multi queue
       execute interfere unwatch reset emit return_ raise index getitem
       json_loads int as_hash truthy eq_int get_item_price uuid4 time
       partitions_for_topic len partition_index modulo
       with_pipe with_server with_others with_log with_clock with_drawn
       server pipe others clock drawn log
       Redis.watched Redis.command_stack Redis.fresh Redis.unchanged
       forallb nth_error app fst snd negb andb Z.eqb];
  fold (@app event); fold (@app string).

(** A write to the order's key that lands between this request's WATCH
    and its read makes [add_item] answer 500 with the [WatchError] and
    write nothing: the store holds what the other client wrote. *)
Theorem add_item_refused_after_early_write
  (e : env) (st : state) (order_id item_id : string)
  (batch : list Redis.command) :
  others st = [[]; batch] ->
  Redis.version_of (fst (Redis.run_all batch (server st))) ("order:" ++ order_id)
  <> Redis.version_of (server st) ("order:" ++ order_id) ->
  let run := add_item order_id item_id e st in
  snd run = Val (StrDict WatchError, 500)
  /\ server (fst run) = fst (Redis.run_all batch (server st)).
Proof.
  intros Ho Hversion.
  destruct st as [srv pp oth clk drw lg]. simpl in *. subst oth.
  apply Nat.eqb_neq in Hversion. cbv [fst] in Hversion.
  run_client. change (Redis.run_all [] srv) with (srv, @nil Redis.reply).
  run_client. rewrite Hversion. run_client. split; reflexivity.
Qed.

Lemma add_item_refused_after_early_write_witness :
  let key := "order:" ++ Scenario.order_id in
  let batch := [Redis.HSET key "items" (Json.dumps ["I2"]);
                Redis.HSET key "total_cost" (PyInt.to_bytes 300)] in
  let st := with_others [[]; batch] Scenario.created in
  snd (add_item Scenario.order_id "I1" Scenario.shop st)
  = Val (StrDict WatchError, 500)
  /\ server (fst (add_item Scenario.order_id "I1" Scenario.shop st))
     = fst (Redis.run_all batch (server st)).
Proof.
  cbv zeta.
  apply (add_item_refused_after_early_write Scenario.shop
           (with_others
              [[]; [Redis.HSET ("order:" ++ Scenario.order_id) "items"
                      (Json.dumps ["I2"]);
                    Redis.HSET ("order:" ++ Scenario.order_id) "total_cost"
                      (PyInt.to_bytes 300)]]
              Scenario.created)
           Scenario.order_id "I1").
  - reflexivity.
  - vm_compute. discriminate.
Defined.

(** Whatever other clients write between this request's read and its
    commit, [add_item] commits: it answers 200 and the record then holds
    the items and the total computed from the snapshot it read, not from
    what the other clients wrote. *)
Theorem add_item_commits_from_its_snapshot
  (e : env) (st : state) (order_id item_id : string)
  (h : Redis.hash) (raw cost : string) (items : list string) (total price : Z)
  (batch : list Redis.command) :
  others st = [[]; []; batch] ->
  stored st order_id = Some h ->
  Dict.get "items" h = Some raw ->
  Json.loads raw = Some items ->
  Dict.get "total_cost" h = Some cost ->
  PyInt.of_bytes cost = Some total ->
  prices e item_id = Some price ->
  let run := add_item order_id item_id e st in
  snd run = Val (success, 200)
  /\ order_items (fst run) order_id = Some (items ++ [item_id])%list
  /\ order_total (fst run) order_id = Some (total + price).
Proof.
  intros Ho Hs Hraw Hi Hcost Ht Hp.
  destruct st as [srv pp oth clk drw lg].
  unfold order_items, order_total, stored in *. simpl in *. subst oth.
  run_client. change (Redis.run_all [] srv) with (srv, @nil Redis.reply).
  run_client. rewrite Nat.eqb_refl. run_client.
  cbn [Redis.run_all Redis.run]. rewrite Hs. run_client.
  rewrite Hp. run_client. rewrite Hraw. run_client. rewrite Hi. run_client.
  rewrite Hcost. run_client. rewrite Ht. run_client.
  destruct (Redis.run_all batch srv) as [srv' replies].
  cbn [Redis.run_all Redis.run]. run_client.
  rewrite !hash_at_store_hash.
  conjuncts.
  - reflexivity.
  - simpl. rewrite get_put_ne, get_put_eq by discriminate. simpl.
    apply loads_dumps.
  - simpl. rewrite get_put_eq. simpl. apply PyInt_of_to_bytes.
Qed.

Lemma add_item_commits_from_its_snapshot_witness :
  let key := "order:" ++ Scenario.order_id in
  let batch := [Redis.HSET key "items" (Json.dumps ["I2"]);
                Redis.HSET key "total_cost" (PyInt.to_bytes 300)] in
  let st := with_others [[]; []; batch] Scenario.created in
  snd (add_item Scenario.order_id "I1" Scenario.shop st) = Val (success, 200)
  /\ order_items (fst (add_item Scenario.order_id "I1" Scenario.shop st))
       Scenario.order_id = Some ["I1"]
  /\ order_total (fst (add_item Scenario.order_id "I1" Scenario.shop st))
       Scenario.order_id = Some 500.
Proof.
  cbv zeta.
  apply (add_item_commits_from_its_snapshot Scenario.shop
           (with_others
              [[]; [];
               [Redis.HSET ("order:" ++ Scenario.order_id) "items"
                  (Json.dumps ["I2"]);
                Redis.HSET ("order:" ++ Scenario.order_id) "total_cost"
                  (PyInt.to_bytes 300)]]
              Scenario.created)
           Scenario.order_id "I1"
           [("order_id", Scenario.order_id); ("paid", "False");
            ("items", Json.dumps []); ("user_id", "U1"); ("total_cost", "0")]
           (Json.dumps []) "0" [] 0 500
           [Redis.HSET ("order:" ++ Scenario.order_id) "items"
              (Json.dumps ["I2"]);
            Redis.HSET ("order:" ++ Scenario.order_id) "total_cost"
              (PyInt.to_bytes 300)]).
  - reflexivity.
  - vm_compute. reflexivity.
  - reflexivity.
  - vm_compute. reflexivity.
  - reflexivity.
  - vm_compute. reflexivity.
  - reflexivity.
Defined.

(** ** A stock service whose prices do not change *)

Import Pricing.

Lemma fixed_prices_respected (p : string -> option Z)
  (calls : list call) (es : entries) :
  Forall (fun c => fst c = p) calls ->
  Forall (fun entry => p (fst entry) = Some (snd entry)) es ->
  removals_at_insertion_price calls es
  /\ Forall (fun entry => p (fst entry) = Some (snd entry)) (spec_calls calls es).
Proof.
  revert es. induction calls as [|[q o] calls IH]; intros es Hcalls Hes.
  - split; [exact I | exact Hes].
  - apply Forall_cons in Hcalls. destruct Hcalls as [Hq Hcalls].
    simpl in Hq. subst q.
    assert (Hstep : Forall (fun entry => p (fst entry) = Some (snd entry))
                      (spec_step (p, o) es)).
    { destruct o as [item_id|item_id]; simpl.
      - destruct (p item_id) as [price|] eqn:Hp; [|exact Hes].
        apply Forall_app. split; [exact Hes|]. now constructor.
      - destruct (p item_id); [|exact Hes].
        clear -Hes. induction es as [|[x y] es IH]; simpl; [constructor|].
        apply Forall_cons in Hes. destruct Hes as [Hx Hes].
        destruct (String.eqb x item_id); [exact Hes|].
        constructor; [exact Hx | now apply IH]. }
    destruct (IH _ Hcalls Hstep) as [Hrem Hfinal].
    simpl. split; [split; [|exact Hrem] | exact Hfinal].
    destruct o as [item_id|item_id]; [exact I|].
    intros quoted inserted Hquoted Hget.
    clear -Hes Hquoted Hget. induction es as [|[x y] es IH]; [discriminate|].
    apply Forall_cons in Hes. destruct Hes as [Hx Hes]. simpl in *.
    destruct (String.eqb_spec x item_id) as [->|Hne].
    + injection Hget as <-. congruence.
    + now apply IH.
Qed.

Lemma sum_prices_priced (p : string -> option Z) (es : entries) :
  Forall (fun entry => p (fst entry) = Some (snd entry)) es ->
  sum_prices es = priced p (map fst es).
Proof.
  unfold sum_prices, priced. induction es as [|[x y] es IH]; intros Hes.
  - reflexivity.
  - apply Forall_cons in Hes. destruct Hes as [Hx Hes]. simpl in *.
    rewrite Hx, IH by exact Hes. reflexivity.
Qed.

(** While the stock service keeps one price list, an order that starts
    empty with a zero total has, after any sequence of completed
    addItem / removeItem calls, a [total_cost] equal to the sum of the
    listed prices of the items it then holds. *)
Theorem total_cost_is_sum_of_listed_prices
  (e : env) (order_id : string) (p : string -> option Z)
  (calls : list call) (st : state) :
  others st = [] ->
  order_items st order_id = Some [] ->
  order_total st order_id = Some 0 ->
  Forall (fun c => fst c = p) calls ->
  exists items,
    order_items (run_calls e order_id calls st) order_id = Some items
    /\ order_total (run_calls e order_id calls st) order_id
       = Some (priced p items).
Proof.
  intros Ho Hi Ht Hcalls.
  destruct (fixed_prices_respected p calls [] Hcalls (Forall_nil_2 _))
    as [Hrem Hfinal].
  assert (Hinv : forall calls st es,
             others st = [] -> cost_invariant st order_id es ->
             removals_at_insertion_price calls es ->
             cost_invariant (run_calls e order_id calls st) order_id
               (spec_calls calls es)).
  { clear. induction calls as [|[q o] calls IH]; intros st es Ho Hinv Hrem.
    - exact Hinv.
    - destruct Hrem as [Hhere Hrest].
      destruct (run_op_step e st order_id q o es Ho Hinv Hhere) as (Ho' & Hinv').
      simpl. now apply IH. }
  destruct (Hinv calls st [] Ho (conj Hi Ht) Hrem) as [Hitems Htotal].
  exists (map fst (spec_calls calls [])). split; [exact Hitems|].
  rewrite Htotal. f_equal. now apply sum_prices_priced.
Qed.

Lemma total_cost_is_sum_of_listed_prices_witness :
  exists items,
    order_items
      (run_calls Scenario.shop Scenario.order_id
         [(prices Scenario.shop, Ledger.AddItem "I1");
          (prices Scenario.shop, Ledger.AddItem "I2");
          (prices Scenario.shop, Ledger.AddItem "I9");
          (prices Scenario.shop, Ledger.RemoveItem "I1")]
         Scenario.created) Scenario.order_id = Some items
    /\ order_total
         (run_calls Scenario.shop Scenario.order_id
            [(prices Scenario.shop, Ledger.AddItem "I1");
             (prices Scenario.shop, Ledger.AddItem "I2");
             (prices Scenario.shop, Ledger.AddItem "I9");
             (prices Scenario.shop, Ledger.RemoveItem "I1")]
            Scenario.created) Scenario.order_id
       = Some (priced (prices Scenario.shop) items).
Proof.
  apply (total_cost_is_sum_of_listed_prices Scenario.shop Scenario.order_id
           (prices Scenario.shop)).
  - reflexivity.
  - vm_compute. reflexivity.
  - vm_compute. reflexivity.
  - repeat constructor.
Defined.

(** ** How long checkout waits *)

Lemma loop_clock (gid : string) (timeout : Z) (e : env)
  (msgs : list message) (st : state) :
  clock st <= timeout ->
  clock st <= clock (fst (for_message_in_consumer gid timeout msgs e st))
  /\ clock (fst (for_message_in_consumer gid timeout msgs e st))
     <= timeout + consumer_timeout_ms.
Proof.
  revert st. induction msgs as [|m msgs IH]; intros st Hnow.
  - destruct st as [srv pp oth clk drw lg]. simpl in *.
    unfold consumer_timeout_ms. lia.
  - rewrite loop_cons.
    destruct (Z.leb_spec (clock st + consumer_timeout_ms) (msg_arrival m)).
    + destruct st as [srv pp oth clk drw lg]. simpl in *.
      unfold consumer_timeout_ms in *. lia.
    + cbv zeta. destruct (matches gid m).
      * destruct (msg_value m) as [s|z|b|l|o];
          try (destruct st as [srv pp oth clk drw lg]; simpl in *;
               unfold consumer_timeout_ms in *; lia).
        destruct (Dict.get "status" o);
          destruct st as [srv pp oth clk drw lg]; simpl in *;
          unfold consumer_timeout_ms in *; lia.
      * destruct (Z.ltb_spec timeout (Z.max (clock st) (msg_arrival m))).
        -- destruct st as [srv pp oth clk drw lg]. simpl in *.
           unfold consumer_timeout_ms in *. lia.
        -- match goal with
           | |- context [for_message_in_consumer gid timeout msgs e ?s] =>
             destruct (IH s) as [Hlow Hhigh]
           end.
           ++ destruct st as [srv pp oth clk drw lg]. simpl in *. lia.
           ++ split; [|exact Hhigh].
              destruct st as [srv pp oth clk drw lg]. simpl in *. lia.
Qed.

Lemma checkout_clock (e : env) (st : state) (order_id : string)
  (items : list string) (all_partitions : list Z) :
  others st = [] ->
  order_items st order_id = Some items ->
  topics e "order_result_topic" = Some all_partitions ->
  all_partitions <> [] ->
  exists gid msgs st0,
    clock st0 = clock st
    /\ clock (fst (checkout order_id e st))
       = clock (fst (for_message_in_consumer gid (clock st + 10000) msgs e st0)).
Proof.
  intros Ho Hi Htopic Hne.
  destruct st as [srv pp oth clk drw lg].
  unfold order_items, stored in Hi. simpl in *. subst oth.
  destruct (Redis.hash_at srv ("order:" ++ order_id)) as [h|] eqn:Hs; [|discriminate].
  simpl in Hi.
  destruct (Dict.get "items" h) as [raw|] eqn:Hraw; [|discriminate].
  simpl in Hi.
  assert (Hcount : Z.of_nat (length all_partitions) <> 0)
    by (destruct all_partitions; [contradiction | simpl; lia]).
  remember (Z.of_nat (length all_partitions)) as count eqn:Ecount.
  run_handler. rewrite Nat.eqb_refl. run_handler. rewrite Hs. run_handler.
  rewrite byte_keys_to_str_id.
  destruct h as [|kv h]; [discriminate|].
  run_handler. rewrite Hraw. run_handler. rewrite Hi. run_handler.
  rewrite Htopic. run_handler. rewrite <- !Ecount.
  destruct count as [|c|c]; [contradiction| |]; run_handler;
    match goal with
    | |- context [for_message_in_consumer ?g ?t ?ms e ?s] =>
      exists g, ms, s; split; [reflexivity|];
      destruct (for_message_in_consumer g t ms e s)
        as [[s1 [[|w ws] stack] [|b o1] c1 d1 l1] [u|r|x]];
      reflexivity
    end.
Qed.

(** Counting only the time spent waiting for records, [checkout] of a
    stored order returns at most 20 seconds after it started to wait:
    the 10-second deadline is checked between records, and each wait for
    the next record may itself last up to 10 seconds. *)
Theorem checkout_wait_is_bounded
  (e : env) (st : state) (order_id : string)
  (items : list string) (all_partitions : list Z) :
  others st = [] ->
  order_items st order_id = Some items ->
  topics e "order_result_topic" = Some all_partitions ->
  all_partitions <> [] ->
  clock st <= clock (fst (checkout order_id e st)) <= clock st + 20000.
Proof.
  intros Ho Hi Htopic Hne.
  destruct (checkout_clock e st order_id items all_partitions Ho Hi Htopic Hne)
    as (gid & msgs & st0 & Hclock & ->).
  destruct (loop_clock gid (clock st + 10000) e msgs st0) as [Hlow Hhigh].
  - rewrite Hclock. lia.
  - unfold consumer_timeout_ms in Hhigh. rewrite Hclock in Hlow. lia.
Qed.

Lemma checkout_wait_is_bounded_witness :
  clock Scenario.stocked
  <= clock (fst (checkout Scenario.order_id Scenario.shop_with_late_reply
                   Scenario.stocked))
  <= clock Scenario.stocked + 20000.
Proof.
  apply (checkout_wait_is_bounded Scenario.shop_with_late_reply Scenario.stocked
           Scenario.order_id ["I1"] [0; 1; 2; 3]).
  - reflexivity.
  - vm_compute. reflexivity.
  - reflexivity.
  - discriminate.
Defined.

(** ** Checking out twice *)

(** [checkout] keeps no trace of a checkout in the store: a second
    checkout of the same order, after a first one has returned, publishes
    the same two intents again, under its own correlation id. *)
Theorem checkout_twice_publishes_twice
  (e1 e2 : env) (st : state) (order_id : string)
  (h : Redis.hash) (raw : string) (items : list string) (all_partitions : list Z) :
  others st = [] ->
  stored st order_id = Some h ->
  Dict.get "items" h = Some raw ->
  Json.loads raw = Some items ->
  topics e2 "order_result_topic" = Some all_partitions ->
  all_partitions <> [] ->
  let st1 := fst (checkout order_id e1 st) in
  let gid2 := uuids e2 (drawn st1) in
  In (ProducerSend "stock_check_topic"
        (Json.JObj [("affected_items", Json.JArr (Json.JStr <$> items));
                    ("action", Json.JStr "remove");
                    ("is_roll_back", Json.JStr "false")])
        gid2)
     (log (fst (checkout order_id e2 st1)))
  /\ In (ProducerSend "payment_processing_topic"
           (Json.JObj [("order_data",
                        Json.JObj
                          (Dict.put "items" (Json.JArr (Json.JStr <$> items))
                             (map (fun kv => (fst kv, Json.JStr (snd kv))) h)));
                       ("action", Json.JStr "pay");
                       ("is_roll_back", Json.JStr "false")])
           gid2)
        (log (fst (checkout order_id e2 st1))).
Proof.
  intros Ho Hs Hraw Hi Htopic Hne. cbv zeta.
  assert (Hst : undisturbed (fst (pipeline e1 st)))
    by exact (undisturbed_start st e1 Ho).
  assert (Hfirst : others (fst (checkout order_id e1 st)) = []
                   /\ server (fst (checkout order_id e1 st)) = server st).
  { unfold checkout. rewrite bind_run. cbn [uuid4].
    rewrite bind_run. cbn [pipeline].
    match goal with
    | |- others (fst (try_except_finally ?b ?hd ?c e1 ?st0)) = _ /\ _ =>
      assert (Hr : reads_only (try_except_finally b hd c))
        by (apply reads_only_try; reading; apply reads_only_pure; reflexivity);
      destruct (Hr e1 st0) as [[Ho' _] Hsrv]
    end.
    - destruct st as [srv pp oth clk drw lg]. split; auto.
    - split; [exact Ho'|]. rewrite Hsrv. now destruct st. }
  destruct Hfirst as [Ho1 Hsrv1].
  assert (Hs1 : stored (fst (checkout order_id e1 st)) order_id = Some h)
    by (unfold stored in *; now rewrite Hsrv1).
  destruct (checkout_published e2 _ order_id h raw items all_partitions
              Ho1 Hs1 Hraw Hi Htopic Hne) as (handed & ->).
  split; apply in_or_app; right; apply in_or_app; left; simpl; tauto.
Qed.

Lemma checkout_twice_publishes_twice_witness :
  let st1 := fst (checkout Scenario.order_id Scenario.shop Scenario.stocked) in
  In (ProducerSend "stock_check_topic"
        (Json.JObj [("affected_items", Json.JArr (Json.JStr <$> ["I1"]));
                    ("action", Json.JStr "remove");
                    ("is_roll_back", Json.JStr "false")])
        (uuids Scenario.shop (drawn st1)))
     (log (fst (checkout Scenario.order_id Scenario.shop st1))).
Proof.
  cbv zeta.
  destruct (checkout_twice_publishes_twice Scenario.shop Scenario.shop
              Scenario.stocked Scenario.order_id
              [("order_id", Scenario.order_id); ("paid", "False");
               ("items", Json.dumps ["I1"]); ("user_id", "U1");
               ("total_cost", "500")]
              (Json.dumps ["I1"]) ["I1"] [0; 1; 2; 3]
              eq_refl ltac:(vm_compute; reflexivity) eq_refl
              ltac:(vm_compute; reflexivity) eq_refl ltac:(discriminate))
    as [Hstock _].
  exact Hstock.
Defined.
